(** * ak-backend: the user controller and its async wrapper

    A shallow embedding of [src/utils/asyncHandler.js] and of
    [src/controllers/user.controller.js] (together with the earlier draft of
    the same controller), and the properties of the session life cycle:
    registration, login, logout, refresh-token rotation, password change,
    profile updates and the channel query.

    JavaScript strings are sequences of UTF-16 code units, documents are
    finite maps from field names to values, the two collections are lists of
    documents, and a handler is a state-and-exception computation over the
    database. *)

From Stdlib Require Import ZArith NArith List Bool String Ascii Lia.
From stdpp Require Import base option list gmap strings.
Import ListNotations.

Local Open Scope Z_scope.
Local Open Scope string_scope.

(** ** JavaScript strings *)

Abbreviation jsstring := (list N).

(** A string literal of the source, as code units. *)
Fixpoint lit (s : string) : jsstring :=
  match s with
  | EmptyString => []
  | String a r => N_of_ascii a :: lit r
  end.

Arguments lit : simpl never.

(** ECMAScript [WhiteSpace] and [LineTerminator] code points: what
    [String.prototype.trim] strips. *)
Definition isWhiteSpace (c : N) : bool :=
  existsb (N.eqb c)
    [0x09; 0x0A; 0x0B; 0x0C; 0x0D; 0x20; 0xA0; 0x1680; 0x2028; 0x2029;
     0x202F; 0x205F; 0x3000; 0xFEFF]%N
  || (N.leb 0x2000 c && N.leb c 0x200A).

Fixpoint trimStart (s : jsstring) : jsstring :=
  match s with
  | [] => []
  | c :: r => if isWhiteSpace c then trimStart r else s
  end.

Definition trimEnd (s : jsstring) : jsstring := rev (trimStart (rev s)).

Definition trim (s : jsstring) : jsstring := trimEnd (trimStart s).

Definition isEmpty (s : jsstring) : bool :=
  match s with [] => true | _ :: _ => false end.

(** Truthiness of a value that is a string or [undefined]: [undefined] and
    the empty string are falsy. *)
Definition truthy (v : option jsstring) : bool :=
  match v with
  | Some s => negb (isEmpty s)
  | None => false
  end.

(** [a || b] on such values. *)
Definition js_or (a b : option jsstring) : option jsstring :=
  if truthy a then a else b.

(** [field?.trim() === ""]: an absent field short-circuits to [undefined],
    which is not the empty string. *)
Definition trimsToEmpty (field : option jsstring) : bool :=
  match field with
  | Some s => isEmpty (trim s)
  | None => false
  end.

(** The claim's "empty or whitespace-only". *)
Definition whitespaceOnly (s : jsstring) : bool := forallb isWhiteSpace s.

(** ** Documents and the database *)

Inductive Value :=
  | VNull
  | VStr (s : jsstring)
  | VId (i : nat)
  | VNum (n : Z)
  | VBool (b : bool).

#[global] Instance Value_eq_dec : EqDecision Value.
Proof. solve_decision. Defined.

Abbreviation Doc := (gmap string Value).

Definition doc_id (d : Doc) : option nat :=
  match d !! "_id" with
  | Some (VId i) => Some i
  | _ => None
  end.

(** [.select("-a -b")]: the projection that drops the listed fields. *)
Definition select (excluded : list string) (d : Doc) : Doc :=
  foldr delete d excluded.

(** Store accesses, recorded in the order they are issued. *)
Inductive StoreOp :=
  | OpFindOne
  | OpFindById (id : option nat)
  | OpCreate
  | OpSave (id : option nat)
  | OpFindByIdAndUpdate (id : option nat)
  | OpAggregate.

Record World := mkWorld {
  users : list Doc;
  subscriptions : list Doc;
  oplog : list StoreOp
}.

(** ** Exceptions and the handler monad *)

Inductive Thrown :=
  | ApiError (statusCode : Z) (message : jsstring)
  | JsError (message : jsstring).

Definition errorMessage (e : Thrown) : jsstring :=
  match e with
  | ApiError _ m => m
  | JsError m => m
  end.

Inductive Outcome (A : Type) :=
  | Return (a : A)
  | Throw (e : Thrown).
Arguments Return {A} a.
Arguments Throw {A} e.

Definition M (A : Type) : Type := World -> World * Outcome A.

Definition ret {A} (a : A) : M A := fun w => (w, Return a).

Definition throw {A} (e : Thrown) : M A := fun w => (w, Throw e).

Definition bind {A B} (m : M A) (k : A -> M B) : M B :=
  fun w =>
    match m w with
    | (w', Return a) => k a w'
    | (w', Throw e) => (w', Throw e)
    end.

(** [try { m } catch (error) { h error }]: writes made before the throw
    stay. *)
Definition tryCatch {A} (m : M A) (h : Thrown -> M A) : M A :=
  fun w =>
    match m w with
    | (w', Return a) => (w', Return a)
    | (w', Throw e) => h e w'
    end.

Notation "x <- c ;; k" := (bind c (fun x => k))
  (at level 100, c at next level, right associativity).
Notation "c ;;; k" := (bind c (fun _ => k))
  (at level 100, right associativity).

Definition TypeError : Thrown := JsError (lit "TypeError").

Definition logged (op : StoreOp) (w : World) : World :=
  mkWorld (users w) (subscriptions w) (oplog w ++ [op]).

Definition logOp (op : StoreOp) : M unit :=
  fun w => (logged op w, Return tt).

(** ** The store, as the controller uses it *)

Definition hasId (id : option nat) (d : Doc) : bool :=
  match id with
  | Some i => bool_decide (d !! "_id" = Some (VId i))
  | None => false
  end.

(** A query condition [{field: v}]; an [undefined] value is sent as [null],
    which matches a null or missing field. *)
Definition matchesField (d : Doc) (cond : string * option jsstring) : bool :=
  match snd cond with
  | Some s => bool_decide (d !! fst cond = Some (VStr s))
  | None => bool_decide (d !! fst cond = None \/ d !! fst cond = Some VNull)
  end.

(** [User.findOne({$or: conds})]. *)
Definition User_findOne (conds : list (string * option jsstring))
    : M (option Doc) :=
  logOp OpFindOne ;;;
  fun w => (w, Return (find (fun d => existsb (matchesField d) conds) (users w))).

(** [User.findById(id)]. *)
Definition User_findById (id : option nat) : M (option Doc) :=
  logOp (OpFindById id) ;;;
  fun w => (w, Return (find (hasId id) (users w))).

Fixpoint replaceFirst (p : Doc -> bool) (f : Doc -> Doc) (l : list Doc)
    : list Doc :=
  match l with
  | [] => []
  | d :: r => if p d then f d :: r else d :: replaceFirst p f r
  end.

(** [User.findByIdAndUpdate(id, update, {new: true})]: the first document
    with that id is updated in place and the updated document is returned. *)
Definition User_findByIdAndUpdate (id : option nat) (update : Doc -> Doc)
    : M (option Doc) :=
  logOp (OpFindByIdAndUpdate id) ;;;
  fun w =>
    (mkWorld (replaceFirst (hasId id) update (users w)) (subscriptions w)
       (oplog w),
     Return (update <$> find (hasId id) (users w))).

(** ** Requests and responses *)

Record File := mkFile { path : jsstring }.

Record Request := mkRequest {
  body : gmap string jsstring;
  cookies : gmap string jsstring;
  params : gmap string jsstring;
  files : option (gmap string (list File));
  file : option File;
  user : option Doc
}.

Record CookieOptions := mkOptions { httpOnly : bool; secure : bool }.

Inductive CookieOp :=
  | SetCookie (name : string) (value : jsstring) (options : CookieOptions)
  | ClearCookie (name : string) (options : CookieOptions).

(** The [data] member of the envelope, by shape. *)
Inductive Data :=
  | DUser (u : option Doc)
  | DSession (u : option Doc) (accessToken refreshToken : jsstring)
  | DTokens (accessToken refreshToken : jsstring)
  | DChannel (c : Doc)
  | DEmpty.

Record Envelope := mkEnvelope {
  statusCode : Z;
  data : Data;
  message : jsstring;
  success : bool
}.

(** Modelled from the spec: the [ApiResponse] class of [utils/ApiResponse.js],
    which is not among the sources; the spec gives the envelope as
    [{statusCode, data, message, success}], with [success] telling a status
    below 400. *)
Definition ApiResponse (statusCode : Z) (data : Data) (message : jsstring)
    : Envelope :=
  mkEnvelope statusCode data message (statusCode <? 400)%Z.

(** [res.status(s).cookie(..)...json(envelope)]. *)
Record Response := mkResponse {
  status : Z;
  setCookies : list CookieOp;
  json : Envelope
}.

(** The user view a response carries, if it carries one. *)
Definition userView (r : Response) : option Doc :=
  match data (json r) with
  | DUser u => u
  | DSession u _ _ => u
  | _ => None
  end.

(** ** Collaborators that are not part of the controller

    The user model's methods and pre-save hook, the media uploader, the
    [jsonwebtoken] verifier, the process environment and the built-in
    [toLowerCase] are taken as an interface.  A mint or a comparison that
    throws is [None]; a failed verification carries its message. *)

Record Upload := mkUpload { url : jsstring }.

Class Collaborators := {
  toLowerCase : jsstring -> jsstring;
  hashPassword : jsstring -> jsstring;
  isPasswordCorrect : Doc -> option jsstring -> option bool;
  generateAccessToken : Doc -> nat -> option jsstring;
  generateRefreshToken : Doc -> nat -> option jsstring;
  jwt_verify : jsstring -> option jsstring -> jsstring + option nat;
  REFRESH_TOKEN_SECRET : option jsstring;
  uploadOnCloudinary : option jsstring -> option Upload
}.

(** ** asyncHandler

    [asyncHandler] is an arrow function whose body is a block.  The block
    holds one expression statement, the inner arrow function, and no
    [return]. *)

Inductive Stmt (A : Type) :=
  | ExprStmt (e : A)
  | ReturnStmt (e : A).
Arguments ExprStmt {A} e.
Arguments ReturnStmt {A} e.

(** Calling a function with a block body: the operand of the first [return]
    reached, and [undefined] ([None]) when the block ends without one. *)
Fixpoint callBlock {A} (block : list (Stmt A)) : option A :=
  match block with
  | [] => None
  | ExprStmt _ :: rest => callBlock rest
  | ReturnStmt e :: _ => Some e
  end.

(** How a wrapped handler ends: a response was sent, or the error went to
    [next]. *)
Inductive Settled :=
  | Sent (r : Response)
  | Next (err : Thrown).

Definition Middleware : Type := Request -> World -> World * Settled.

(** [(req, res, next) => { Promise.resolve(reqHandler(req, res, next))
    .catch((err) => next(err)) }]. *)
Definition forwardErrors (reqHandler : Request -> M Response) : Middleware :=
  fun req w =>
    match reqHandler req w with
    | (w', Return r) => (w', Sent r)
    | (w', Throw err) => (w', Next err)
    end.

Definition asyncHandler (reqHandler : Request -> M Response)
    : option Middleware :=
  callBlock [ExprStmt (forwardErrors reqHandler)].

Section Controller.

Context `{C : Collaborators}.

Definition setField (k : string) (v : option jsstring) (d : Doc) : Doc :=
  match v with
  | Some s => <[k := VStr s]> d
  | None => delete k d
  end.

(** Modelled from the spec: the pre-persist hook of [models/user.model.js],
    which is not among the sources; it hashes the password when the password
    of the document being persisted was modified. *)
Definition preSave (stored : option Doc) (d : Doc) : Doc :=
  if bool_decide (stored ≫= (fun o => o !! "password") = d !! "password")
  then d
  else match d !! "password" with
       | Some (VStr p) => <["password" := VStr (hashPassword p)]> d
       | _ => d
       end.

(** [doc.save({validateBeforeSave: false})]: the stored document with the
    same id is overwritten by the in-memory one. *)
Definition Doc_save (d : Doc) : M unit :=
  logOp (OpSave (doc_id d)) ;;;
  fun w =>
    (mkWorld
       (replaceFirst (hasId (doc_id d)) (fun old => preSave (Some old) d)
          (users w))
       (subscriptions w) (oplog w),
     Return tt).

Definition freshId (l : list Doc) : nat :=
  S (foldr (fun d m => match doc_id d with
                       | Some i => Nat.max i m
                       | None => m
                       end) 0%nat l).

(** Modelled from the spec: [User.create] of the absent user model; the
    record is stored under a fresh id with its password hashed. *)
Definition User_create (fields : Doc) : M Doc :=
  logOp OpCreate ;;;
  fun w =>
    let d := preSave None (<["_id" := VId (freshId (users w))]> fields) in
    (mkWorld (users w ++ [d]) (subscriptions w) (oplog w), Return d).

(** A collaborator call that may throw. *)
Definition orThrow {A} (r : option A) (e : Thrown) : M A :=
  match r with
  | Some a => ret a
  | None => throw e
  end.

(** *** generateAccessAndRefreshToken *)

Definition generateAccessAndRefreshToken (userId : option nat) (now : nat)
    : M (jsstring * jsstring) :=
  tryCatch
    (found <- User_findById userId ;;
     user <- orThrow found TypeError ;;
     accessToken <- orThrow (generateAccessToken user now)
                      (JsError (lit "sign")) ;;
     refreshToken <- orThrow (generateRefreshToken user now)
                       (JsError (lit "sign")) ;;
     let user := <["refreshToken" := VStr refreshToken]> user in
     Doc_save user ;;;
     ret (accessToken, refreshToken))
    (fun error =>
       throw (ApiError 500
         (lit "Something went wrong, while creating access and refresh token"))).

(** *** registerUser *)

Definition firstPath (l : list File) : option jsstring := path <$> head l.

Definition registerUserHandler (req : Request) : M Response :=
  let fullname := body req !! "fullname" in
  let email := body req !! "email" in
  let username := body req !! "username" in
  let password := body req !! "password" in
  if existsb trimsToEmpty [fullname; email; username; password]
  then throw (ApiError 400 (lit "All field are required"))
  else
    existedUser <- User_findOne [("email", email); ("username", username)] ;;
    if bool_decide (is_Some existedUser)
    then throw (ApiError 409 (lit "user is already exist"))
    else
      avatarLocalPath <-
        match files req with
        | None => ret None
        | Some fs => l <- orThrow (fs !! "avatar") TypeError ;; ret (firstPath l)
        end ;;
      let coverImageLocalPath :=
        match files req with
        | Some fs =>
            match fs !! "coverImage" with
            | Some (f :: _) => Some (path f)
            | _ => None
            end
        | None => None
        end in
      if negb (truthy avatarLocalPath)
      then throw (ApiError 400 (lit "Avatar files is reqiured"))
      else
        let avatar := uploadOnCloudinary avatarLocalPath in
        let coverImage := uploadOnCloudinary coverImageLocalPath in
        match avatar with
        | None => throw (ApiError 400 (lit "Avatar files is reqiured"))
        | Some avatar =>
            lowered <- orThrow (toLowerCase <$> username) TypeError ;;
            user <- User_create
                      (setField "fullname" fullname
                        (setField "avatar" (Some (url avatar))
                          (setField "coverImage"
                             (js_or (url <$> coverImage) (Some []))
                            (setField "email" email
                              (setField "password" password
                                (setField "username" (Some lowered) ∅)))))) ;;
            found <- User_findById (doc_id user) ;;
            let createdUser := select ["password"; "refreshToken"] <$> found in
            match createdUser with
            | None =>
                throw (ApiError 500
                  (lit "Something went wrong while registering the user"))
            | Some createdUser =>
                ret (mkResponse 201 []
                       (ApiResponse 200 (DUser (Some createdUser))
                          (lit "User register successfully")))
            end
        end.

(** *** loginUser *)

Definition loginUserHandler (now : nat) (req : Request) : M Response :=
  let username := body req !! "username" in
  let email := body req !! "email" in
  let password := body req !! "password" in
  if negb (truthy username) && negb (truthy email)
  then throw (ApiError 400 (lit "username or email is required"))
  else
    found <- User_findOne [("username", username); ("email", email)] ;;
    match found with
    | None => throw (ApiError 404 (lit "User does not exist"))
    | Some user =>
        isPasswordValid <- orThrow (isPasswordCorrect user password)
                             (JsError (lit "compare")) ;;
        if negb isPasswordValid
        then throw (ApiError 401 (lit "Invalid user credentials."))
        else
          tokens <- generateAccessAndRefreshToken (doc_id user) now ;;
          let accessToken := fst tokens in
          let refreshToken := snd tokens in
          found <- User_findById (doc_id user) ;;
          let loggedInUser := select ["password"; "refreshToken"] <$> found in
          let options := mkOptions true false in
          ret (mkResponse 200
                 [SetCookie "accessToken" accessToken options;
                  SetCookie "refreshToken" refreshToken options]
                 (ApiResponse 200
                    (DSession loggedInUser accessToken refreshToken)
                    (lit "User logged In Successfully")))
    end.

(** *** logoutUser *)

Definition logoutUserHandler (req : Request) : M Response :=
  caller <- orThrow (user req) TypeError ;;
  User_findByIdAndUpdate (doc_id caller) (delete "refreshToken") ;;;
  let options := mkOptions true false in
  ret (mkResponse 200
         [ClearCookie "accessToken" options;
          ClearCookie "refreshToken" options]
         (ApiResponse 200 DEmpty (lit "User Logged Out successfully"))).

(** *** refreshAccessToken *)

(** What the [catch] of [refreshAccessToken] throws:
    [new ApiError(401, error?.message || "Invalaid refresh token")]. *)
Definition rethrown (error : Thrown) : Thrown :=
  ApiError 401
    (if isEmpty (errorMessage error)
     then lit "Invalaid refresh token"
     else errorMessage error).

(** [req.cookies.refreshToken || req.body.refreshToken]. *)
Definition incomingRefreshToken (req : Request) : option jsstring :=
  js_or (cookies req !! "refreshToken") (body req !! "refreshToken").

Definition refreshAccessTokenHandler (now : nat) (req : Request)
    : M Response :=
  match incomingRefreshToken req with
  | Some token =>
      if isEmpty token
      then throw (ApiError 401 (lit "Unauthorized request"))
      else
        tryCatch
          (decodedId <-
             match jwt_verify token REFRESH_TOKEN_SECRET with
             | inl msg => throw (JsError msg)
             | inr id => ret id
             end ;;
           found <- User_findById decodedId ;;
           match found with
           | None => throw (ApiError 3401 (lit "invalid refersh token"))
           | Some user =>
               if negb (bool_decide (user !! "refreshToken" = Some (VStr token)))
               then throw (ApiError 401 (lit "Refresh Token is expired or used"))
               else
                 let options := mkOptions true true in
                 tokens <- generateAccessAndRefreshToken (doc_id user) now ;;
                 let accessToken := fst tokens in
                 let newRefreshToken := snd tokens in
                 ret (mkResponse 200
                        [SetCookie "accessToken" accessToken options;
                         SetCookie "refreshToken" newRefreshToken options]
                        (ApiResponse 200 (DTokens accessToken newRefreshToken)
                           (lit "AccessToken refreshed")))
           end)
          (fun error => throw (rethrown error))
  | None => throw (ApiError 401 (lit "Unauthorized request"))
  end.

(** *** changeCurrentPassword *)

Definition changeCurrentPasswordHandler (req : Request) : M Response :=
  let oldPassword := body req !! "oldPassword" in
  let newPassword := body req !! "newPassword" in
  found <- User_findById (user req ≫= doc_id) ;;
  user <- orThrow found TypeError ;;
  isPasswordCorrect <- orThrow (isPasswordCorrect user oldPassword)
                         (JsError (lit "compare")) ;;
  if negb isPasswordCorrect
  then throw (ApiError 400 (lit "Invalid Old Password"))
  else
    let user := setField "password" newPassword user in
    Doc_save user ;;;
    ret (mkResponse 200 []
           (ApiResponse 200 DEmpty (lit "Password Changed Successfully"))).

(** *** getCurrentUser *)

Definition getCurrentUserHandler (req : Request) : M Response :=
  ret (mkResponse 200 []
         (ApiResponse 200 (DUser (user req))
            (lit "current user fetched successfully"))).

(** *** updateUserAccount *)

Definition updateUserAccountHandler (req : Request) : M Response :=
  let fullname := body req !! "fullname" in
  let email := body req !! "email" in
  if negb (truthy fullname) || negb (truthy email)
  then throw (ApiError 400 (lit "All Fields are required"))
  else
    found <- User_findByIdAndUpdate (user req ≫= doc_id)
               (fun d => setField "fullname" fullname
                           (setField "email" email d)) ;;
    let user := select ["password"] <$> found in
    ret (mkResponse 200 []
           (ApiResponse 200 (DUser user)
              (lit "Account details updated successfully"))).

(** *** updateUserAvatar and updateUserCoverImage *)

Definition updateUserAvatarHandler (req : Request) : M Response :=
  let avatarLocalPath := path <$> file req in
  if negb (truthy avatarLocalPath)
  then throw (ApiError 400 (lit "Avatar is required"))
  else
    avatar <- orThrow (uploadOnCloudinary avatarLocalPath) TypeError ;;
    if isEmpty (url avatar)
    then throw (ApiError 500 (lit "Error while uploading avatar"))
    else
      found <- User_findByIdAndUpdate (user req ≫= doc_id)
                 (setField "avatar" (Some (url avatar))) ;;
      let user := select ["password"] <$> found in
      ret (mkResponse 200 []
             (ApiResponse 200 (DUser user)
                (lit "Avatar is updated is successfully"))).

Definition updateUserCoverImageHandler (req : Request) : M Response :=
  let coverImageLocalPath := path <$> file req in
  if negb (truthy coverImageLocalPath)
  then throw (ApiError 400 (lit "cover image is required"))
  else
    coverImage <- orThrow (uploadOnCloudinary coverImageLocalPath) TypeError ;;
    if isEmpty (url coverImage)
    then throw (ApiError 500 (lit "Error while uploading avatar"))
    else
      found <- User_findByIdAndUpdate (user req ≫= doc_id)
                 (setField "coverImage" (Some (url coverImage))) ;;
      let user := select ["password"] <$> found in
      ret (mkResponse 200 []
             (ApiResponse 200 (DUser user)
                (lit "coverImage is updated successfully"))).

(** *** getUserChannalProfile *)

(** A field as the aggregation sees it: a missing field reads as null. *)
Definition fieldOrNull (d : Doc) (field : string) : Value :=
  default VNull (d !! field).

(** [$lookup] from the subscriptions: those whose [foreignField] equals the
    document's [_id]. *)
Definition lookupSubscriptions (subs : list Doc) (foreignField : string)
    (d : Doc) : list Doc :=
  filter (fun s => fieldOrNull s foreignField = fieldOrNull d "_id") subs.

Definition idValue (id : option nat) : Value :=
  match id with
  | Some i => VId i
  | None => VNull
  end.

(** [$addFields] of the pipeline, over the two joined arrays. *)
Definition addFields (viewer : option nat) (subscribers subscribedTo : list Doc)
    (d : Doc) : Doc :=
  <["subscriberCount" := VNum (Z.of_nat (length subscribers))]>
    (<["channelsSubscribedToCount" := VNum (Z.of_nat (length subscribedTo))]>
      (<["isSubscribed" :=
           VBool (existsb
                    (fun s => bool_decide (s !! "subscriber"
                                           = Some (idValue viewer)))
                    subscribers)]> d)).

(** [$project]: the listed fields and [_id]. *)
Definition project (fields : list string) (d : Doc) : Doc :=
  filter (fun kv => kv.1 ∈ "_id" :: fields) d.

Definition channelPipeline (subs : list Doc) (viewer : option nat)
    (username : jsstring) (us : list Doc) : list Doc :=
  let matched :=
    filter (fun d => d !! "username" = Some (VStr username)) us in
  let joined :=
    map (fun d => (d, lookupSubscriptions subs "channel" d,
                      lookupSubscriptions subs "subscriber" d)) matched in
  let extended :=
    map (fun j => addFields viewer j.1.2 j.2 j.1.1) joined in
  map (project ["fullname"; "username"; "subscribersCount";
                "channelsSubscribedToCount"; "isSubscribed"; "avatar";
                "coverImage"; "email"]) extended.

Definition User_aggregate (viewer : option nat) (username : jsstring)
    : M (list Doc) :=
  logOp OpAggregate ;;;
  fun w =>
    (w, Return (channelPipeline (subscriptions w) viewer username (users w))).

Definition getUserChannalProfileHandler (req : Request) : M Response :=
  let username := params req !! "username" in
  match username with
  | Some username =>
      if isEmpty (trim username)
      then throw (ApiError 400 (lit "Username is missing"))
      else
        channel <- User_aggregate (user req ≫= doc_id) (toLowerCase username) ;;
        match channel with
        | [] => throw (ApiError 400 (lit "Channel doesnot exists"))
        | first :: _ =>
            ret (mkResponse 200 []
                   (ApiResponse 200 (DChannel first)
                      (lit "user channel fetched successfully")))
        end
  | None => throw (ApiError 400 (lit "Username is missing"))
  end.

(** *** The exported bindings *)

Definition registerUser := asyncHandler registerUserHandler.
Definition loginUser (now : nat) := asyncHandler (loginUserHandler now).
Definition logoutUser := asyncHandler logoutUserHandler.
Definition refreshAccessToken (now : nat) :=
  asyncHandler (refreshAccessTokenHandler now).
Definition changeCurrentPassword := asyncHandler changeCurrentPasswordHandler.
Definition getCurrentUser := asyncHandler getCurrentUserHandler.
Definition updateUserAccount := asyncHandler updateUserAccountHandler.
Definition updateUserAvatar := asyncHandler updateUserAvatarHandler.
Definition updateUserCoverImage := asyncHandler updateUserCoverImageHandler.
Definition getUserChannalProfile := asyncHandler getUserChannalProfileHandler.

Definition exports (now : nat) : list (string * option Middleware) :=
  [("registerUser", registerUser);
   ("loginUser", loginUser now);
   ("logoutUser", logoutUser);
   ("refreshAccessToken", refreshAccessToken now);
   ("changeCurrentPassword", changeCurrentPassword);
   ("getCurrentUser", getCurrentUser);
   ("updateUserAccount", updateUserAccount);
   ("updateUserAvatar", updateUserAvatar);
   ("updateUserCoverImage", updateUserCoverImage);
   ("getUserChannalProfile", getUserChannalProfile)].

End Controller.

(** ** The earlier draft of the controller

    The second copy of the controller among the sources: it has
    [registerUser] and [loginUser] in an earlier form. *)

Module Draft.
Section Draft.

Context `{C : Collaborators}.

Definition registerUserHandler (req : Request) : M Response :=
  let fullname := body req !! "fullname" in
  let email := body req !! "email" in
  let username := body req !! "username" in
  let password := body req !! "password" in
  if existsb trimsToEmpty [fullname; email; username; password]
  then throw (ApiError 400 (lit "All field are required"))
  else
    existedUser <- User_findOne [("email", email); ("username", username)] ;;
    if bool_decide (is_Some existedUser)
    then throw (ApiError 409 (lit "user is already exist"))
    else
      let firstOf (field : string) :=
        match files req with
        | Some fs =>
            match fs !! field with
            | Some (f :: _) => Some (path f)
            | _ => None
            end
        | None => None
        end in
      let avatarLocalPath := firstOf "avatar" in
      let coverImageLocalPath := firstOf "coverImage" in
      if negb (truthy avatarLocalPath)
      then throw (ApiError 400 (lit "Avatar files is reqiured"))
      else
        let avatar := uploadOnCloudinary avatarLocalPath in
        let coverImage := uploadOnCloudinary coverImageLocalPath in
        match avatar with
        | None => throw (ApiError 400 (lit "Avatar files is reqiured"))
        | Some avatar =>
            lowered <- orThrow (toLowerCase <$> username) TypeError ;;
            user <- User_create
                      (setField "fullname" fullname
                        (setField "avatar" (Some (url avatar))
                          (setField "coverImage"
                             (js_or (url <$> coverImage) (Some []))
                            (setField "email" email
                              (setField "password" password
                                (setField "username" (Some lowered) ∅)))))) ;;
            found <- User_findById (doc_id user) ;;
            let createdUser := select ["password"; "refreshToken"] <$> found in
            match createdUser with
            | None =>
                throw (ApiError 500
                  (lit "Something went wrong while registering the user"))
            | Some createdUser =>
                ret (mkResponse 201 []
                       (ApiResponse 200 (DUser (Some createdUser))
                          (lit "User register successfully")))
            end
        end.

Definition loginUserHandler (now : nat) (req : Request) : M Response :=
  let username := body req !! "username" in
  let email := body req !! "email" in
  let password := body req !! "password" in
  if negb (truthy username) || negb (truthy email)
  then throw (ApiError 400 (lit "username or email is required"))
  else
    found <- User_findOne [("username", username); ("email", email)] ;;
    match found with
    | None => throw (ApiError 404 (lit "User does not exist"))
    | Some user =>
        isPasswordValid <- orThrow (isPasswordCorrect user password)
                             (JsError (lit "compare")) ;;
        if negb isPasswordValid
        then throw (ApiError 401 (lit "Invalid user credientials"))
        else
          tokens <- generateAccessAndRefreshToken (doc_id user) now ;;
          let accessToken := fst tokens in
          let refreshToken := snd tokens in
          found <- User_findById (doc_id user) ;;
          let loggedInUser := select ["password"; "refreshToken"] <$> found in
          let options := mkOptions true true in
          ret (mkResponse 200
                 [SetCookie "accessToken" accessToken options;
                  SetCookie "refressToken" refreshToken options]
                 (ApiResponse 200
                    (DSession loggedInUser accessToken refreshToken)
                    (lit "User logged In Successfully")))
    end.

End Draft.
End Draft.

(** ** Users of the handlers *)

(** Modelled from the spec: the auth-verification middleware, which is not
    among the sources; it checks the access token and injects the identity
    of the caller into the request.  What it injects is the caller's record
    as a user view: the password hash is never returned and a profile fetch
    never returns the refresh token, and the profile fetch returns the
    injected identity as it is. *)
Definition authenticate (caller : Doc) (req : Request) : Request :=
  mkRequest (body req) (cookies req) (params req) (files req) (file req)
    (Some (select ["password"; "refreshToken"] caller)).

(** The operations whose success response carries a user view. *)
Inductive ViewOp :=
  | Register
  | Login
  | UpdateAccount
  | UpdateAvatar
  | UpdateCoverImage
  | CurrentUser.

Definition runViewOp `{C : Collaborators} (op : ViewOp) (now : nat)
    (caller : Doc) (req : Request) : M Response :=
  match op with
  | Register => registerUserHandler req
  | Login => loginUserHandler now req
  | UpdateAccount => updateUserAccountHandler (authenticate caller req)
  | UpdateAvatar => updateUserAvatarHandler (authenticate caller req)
  | UpdateCoverImage => updateUserCoverImageHandler (authenticate caller req)
  | CurrentUser => getCurrentUserHandler (authenticate caller req)
  end.

(** The responses that return a profile as such (the created, the logged-in
    and the current user); the update operations answer with the updated
    record. *)
Definition profileReturning (op : ViewOp) : bool :=
  match op with
  | Register | Login | CurrentUser => true
  | UpdateAccount | UpdateAvatar | UpdateCoverImage => false
  end.

(** ** A concrete set of collaborators, for the examples *)

Module Demo.

Definition lower (c : N) : N :=
  if (N.leb 65 c && N.leb c 90)%N then (c + 32)%N else c.

Definition hash (p : jsstring) : jsstring := 35%N :: p.

Definition compare (d : Doc) (p : option jsstring) : option bool :=
  match p with
  | Some s => Some (bool_decide (d !! "password" = Some (VStr (hash s))))
  | None => None
  end.

(** A token names its kind, the user id and the time it was minted at. *)
Definition mint (kind : N) (d : Doc) (now : nat) : option jsstring :=
  match doc_id d with
  | Some i => Some [kind; N.of_nat i; N.of_nat now]
  | None => None
  end.

Definition verify (token : jsstring) (secret : option jsstring)
    : jsstring + option nat :=
  match secret, token with
  | None, _ => inl (lit "secret or public key must be provided")
  | Some _, [114%N; i; _] => inr (Some (N.to_nat i))
  | Some _, _ => inl (lit "jwt malformed")
  end.

Definition upload (p : option jsstring) : option Upload :=
  match p with
  | Some s => if isEmpty s then None else Some (mkUpload (lit "cdn:" ++ s))
  | None => None
  end.

Definition collaborators : Collaborators := {|
  toLowerCase := map lower;
  hashPassword := hash;
  isPasswordCorrect := compare;
  generateAccessToken := mint 97%N;
  generateRefreshToken := mint 114%N;
  jwt_verify := verify;
  REFRESH_TOKEN_SECRET := Some (lit "refresh-secret");
  uploadOnCloudinary := upload
|}.

Definition fields (l : list (string * jsstring)) : gmap string jsstring :=
  list_to_map l.

Definition request (b : list (string * jsstring)) : Request :=
  mkRequest (fields b) ∅ ∅ None None None.

Definition empty : World := mkWorld [] [] [].

(** alice, registered and not logged in. *)
Definition alice : Doc :=
  <["_id" := VId 1]>
    (<["username" := VStr (lit "alice")]>
      (<["email" := VStr (lit "alice@x.com")]>
        (<["fullname" := VStr (lit "Alice")]>
          (<["password" := VStr (hash (lit "p1"))]>
            (<["avatar" := VStr (lit "cdn:a.png")]>
              (<["coverImage" := VStr []]> ∅)))))).

Definition registered : World := mkWorld [alice] [] [].

Definition registerAlice : Request :=
  mkRequest
    (fields [("fullname", lit "Alice"); ("email", lit "alice@x.com");
             ("username", lit "Alice"); ("password", lit "p1")])
    ∅ ∅ (Some {["avatar" := [mkFile (lit "a.png")]]}) None None.

(** The request of the scenario: [login("alice", "", "p1")]. *)
Definition loginAlice : Request :=
  request [("username", lit "alice"); ("email", []); ("password", lit "p1")].

(** alice, logged in at time 7. *)
Definition aliceToken : jsstring := [114; 1; 7]%N.

Definition aliceLoggedIn : Doc := <["refreshToken" := VStr aliceToken]> alice.

Definition loggedIn : World := mkWorld [aliceLoggedIn] [] [].

Definition refreshWith (token : jsstring) : Request :=
  mkRequest ∅ (fields [("refreshToken", token)]) ∅ None None None.

(** A register request that leaves [fullname] out, for a taken username. *)
Definition registerNoFullname : Request :=
  request [("email", lit "alice@x.com"); ("username", lit "alice");
           ("password", lit "p1")].

(** alice asks for a new password and gives a wrong old one. *)
Definition changeWrong : Request :=
  mkRequest (fields [("oldPassword", lit "guess"); ("newPassword", lit "p2")])
    ∅ ∅ None None (Some (select ["password"; "refreshToken"] alice)).

(** What refreshing with alice's token at time 8 answers, and the world it
    leaves. *)
Definition refreshed : Response :=
  mkResponse 200
    [SetCookie "accessToken" [97; 1; 8]%N (mkOptions true true);
     SetCookie "refreshToken" [114; 1; 8]%N (mkOptions true true)]
    (ApiResponse 200 (DTokens [97; 1; 8]%N [114; 1; 8]%N)
       (lit "AccessToken refreshed")).

Definition afterRefresh : World :=
  mkWorld [<["refreshToken" := VStr [114; 1; 8]%N]> alice] [] 
    [OpFindById (Some 1%nat); OpFindById (Some 1%nat); OpSave (Some 1%nat)].

(** A well-formed refresh token of a user that has no record. *)
Definition strangerToken : jsstring := [114; 9; 7]%N.

(** alice, logged in, logs out. *)
Definition logoutAlice : Request :=
  mkRequest ∅ ∅ ∅ None None
    (Some (select ["password"; "refreshToken"] aliceLoggedIn)).

(** A visitor asks for the channel of a username nobody has. *)
Definition channelOfGhost : Request :=
  mkRequest ∅ ∅ (fields [("username", lit "Ghost")]) None None None.

(** What registering alice answers, and the world it leaves. *)
Definition created : Response :=
  mkResponse 201 []
    (ApiResponse 200 (DUser (Some (delete "password" alice)))
       (lit "User register successfully")).

Definition afterRegister : World :=
  mkWorld [alice] [] [OpFindOne; OpCreate; OpFindById (Some 1%nat)].

End Demo.

(** ** Further requests and worlds, for the examples *)

Module Cases.

(** The response of a run that returned. *)
Definition answer (run : World * Outcome Response) : Response :=
  match run.2 with
  | Return resp => resp
  | Throw _ => mkResponse 0 [] (ApiResponse 0 DEmpty [])
  end.

(** A register request whose username is two spaces. *)
Definition blankUsername : Request :=
  Demo.request [("fullname", lit "Bob"); ("email", lit "bob@x.com");
                ("username", lit "  "); ("password", lit "p2")].

(** bob registers without any file, and with a cover image only. *)
Definition registerWithoutFiles : Request :=
  Demo.request [("fullname", lit "Bob"); ("email", lit "bob@x.com");
                ("username", lit "bob"); ("password", lit "p2")].

Definition registerCoverOnly : Request :=
  mkRequest (body registerWithoutFiles) ∅ ∅
    (Some {["coverImage" := [mkFile (lit "c.png")]]}) None None.

Definition loginWrongPassword : Request :=
  Demo.request [("username", lit "alice"); ("password", lit "nope")].

(** Collaborators whose access-token secret is missing: signing throws. *)
Definition unsigned : Collaborators := {|
  toLowerCase := map Demo.lower;
  hashPassword := Demo.hash;
  isPasswordCorrect := Demo.compare;
  generateAccessToken := fun _ _ => None;
  generateRefreshToken := Demo.mint 114%N;
  jwt_verify := Demo.verify;
  REFRESH_TOKEN_SECRET := Some (lit "refresh-secret");
  uploadOnCloudinary := Demo.upload
|}.

Definition malformedToken : jsstring := [1; 2]%N.

(** A request of alice, logged in, as the auth middleware hands it on. *)
Definition asAlice (b : list (string * jsstring)) (f : option File)
    : Request :=
  mkRequest (Demo.fields b) ∅ ∅ None f
    (Some (select ["password"; "refreshToken"] Demo.aliceLoggedIn)).

Definition changeRight : Request :=
  asAlice [("oldPassword", lit "p1"); ("newPassword", lit "p2")] None.

Definition updateAlice : Request :=
  asAlice [("fullname", lit "Alice B"); ("email", lit "ab@x.com")] None.

Definition avatarUpload : Request := asAlice [] (Some (mkFile (lit "new.png"))).

Definition noFile : Request := asAlice [] None.

(** bob, who subscribed to alice. *)
Definition bob : Doc :=
  <["_id" := VId 2]>
    (<["username" := VStr (lit "bob")]>
      (<["email" := VStr (lit "bob@x.com")]>
        (<["fullname" := VStr (lit "Bob")]>
          (<["password" := VStr (Demo.hash (lit "p2"))]> ∅)))).

Definition bobFollowsAlice : Doc :=
  <["subscriber" := VId 2]> (<["channel" := VId 1]> ∅).

Definition community : World :=
  mkWorld [Demo.aliceLoggedIn; bob] [bobFollowsAlice] [].

(** The channel of a username, asked for by a viewer. *)
Definition channelOf (username : jsstring) (viewer : option Doc) : Request :=
  mkRequest ∅ ∅ (Demo.fields [("username", username)]) None None viewer.

End Cases.

(** * Properties *)

(** ** Strings *)

Lemma trimStart_nil_iff (s : jsstring) :
  trimStart s = [] <-> whitespaceOnly s = true.
Proof.
  unfold whitespaceOnly.
  induction s as [|c r IH]; simpl; [tauto|].
  destruct (isWhiteSpace c); simpl; [exact IH|].
  split; discriminate.
Qed.

Lemma trimStart_head (s : jsstring) :
  match trimStart s with
  | [] => True
  | c :: _ => isWhiteSpace c = false
  end.
Proof.
  induction s as [|c r IH]; simpl; [exact I|].
  destruct (isWhiteSpace c) eqn:E; [exact IH | exact E].
Qed.

Lemma whitespaceOnly_rev (s : jsstring) :
  whitespaceOnly (rev s) = whitespaceOnly s.
Proof.
  unfold whitespaceOnly.
  induction s as [|c r IH]; simpl; [reflexivity|].
  rewrite forallb_app, IH; simpl.
  rewrite andb_true_r. apply andb_comm.
Qed.

Lemma trim_nil_iff (s : jsstring) :
  isEmpty (trim s) = true <-> whitespaceOnly s = true.
Proof.
  unfold trim, trimEnd.
  rewrite <- trimStart_nil_iff.
  assert (Hrev : forall l : jsstring, isEmpty (rev l) = true <-> l = []).
  { intros [|c l]; simpl; [tauto|].
    destruct (rev l ++ [c])%list eqn:E; simpl.
    - apply app_eq_nil in E. destruct E; discriminate.
    - split; discriminate. }
  rewrite Hrev, trimStart_nil_iff, whitespaceOnly_rev.
  pose proof (trimStart_head s) as Hh.
  destruct (trimStart s) as [|c r] eqn:E; [tauto|].
  unfold whitespaceOnly; simpl. rewrite Hh; simpl.
  split; discriminate.
Qed.

Lemma trimsToEmpty_iff (field : option jsstring) :
  trimsToEmpty field = true <->
  exists s, field = Some s /\ whitespaceOnly s = true.
Proof.
  destruct field as [s|]; simpl.
  - rewrite trim_nil_iff. split; [eauto|]. intros (s' & [= <-] & H). exact H.
  - split; [discriminate|]. intros (s' & [=] & _).
Qed.

(** ** asyncHandler *)

(** C9: for every request handler, [asyncHandler] evaluates to [undefined]
    and not to a wrapping function, so every binding the controller exports
    is [undefined]. *)
Theorem asyncHandler_returns_undefined :
  (forall reqHandler, asyncHandler reqHandler = None)
  /\ (forall (C : Collaborators) (now : nat),
        Forall (fun binding => binding.2 = None) (exports now)).
Proof.
  split.
  - intros reqHandler. unfold asyncHandler. simpl. reflexivity.
  - intros C now. unfold exports. repeat constructor.
Qed.

(** Had the block returned the inner function, the wrapper would have been
    the one that forwards a thrown error to [next]. *)
Lemma callBlock_return (reqHandler : Request -> M Response) :
  callBlock [ReturnStmt (forwardErrors reqHandler)]
  = Some (forwardErrors reqHandler).
Proof. reflexivity. Qed.

(** ** Running a handler *)

Lemma bind_Return_inv {A B} (m : M A) (k : A -> M B) w w' (b : B) :
  bind m k w = (w', Return b) ->
  exists a w1, m w = (w1, Return a) /\ k a w1 = (w', Return b).
Proof.
  unfold bind. destruct (m w) as [w1 [a|e]]; [eauto | discriminate].
Qed.

Lemma bind_run {A B} (m : M A) (k : A -> M B) w w1 (a : A) :
  m w = (w1, Return a) -> bind m k w = k a w1.
Proof. unfold bind. intros ->. reflexivity. Qed.

Lemma bind_ret {A B} (a : A) (k : A -> M B) w : bind (ret a) k w = k a w.
Proof. reflexivity. Qed.

Lemma bind_throw {A B} e (k : A -> M B) w :
  bind (throw e) k w = (w, Throw e).
Proof. reflexivity. Qed.

(** Takes apart a run that returned, along the binds and branches of the
    handler. *)
Ltac returned H :=
  repeat
    match type of H with
    | bind _ _ _ = (_, Return _) =>
        let a := fresh "a" in
        let w := fresh "w" in
        let Hm := fresh "Hm" in
        apply bind_Return_inv in H as (a & w & Hm & H)
    | throw _ _ = (_, Return _) => discriminate H
    | (if ?b then _ else _) _ = (_, Return _) =>
        let E := fresh "E" in destruct b eqn:E
    | (match ?x with _ => _ end) _ = (_, Return _) =>
        let E := fresh "E" in destruct x eqn:E
    | (let _ := _ in _) _ = (_, Return _) => cbv zeta in H
    end.

(** Every computation of the controller only appends to the log of store
    accesses. *)
Definition appendsLog {A} (m : M A) : Prop :=
  forall w, exists rest, oplog (m w).1 = (oplog w ++ rest)%list.

Lemma appendsLog_ret {A} (a : A) : appendsLog (ret a).
Proof. intros w. exists []. simpl. by rewrite app_nil_r. Qed.

Lemma appendsLog_throw {A} e : appendsLog (@throw A e).
Proof. intros w. exists []. simpl. by rewrite app_nil_r. Qed.

Lemma appendsLog_logOp op : appendsLog (logOp op).
Proof. intros w. exists [op]. reflexivity. Qed.

Lemma appendsLog_bind {A B} (m : M A) (k : A -> M B) :
  appendsLog m -> (forall a, appendsLog (k a)) -> appendsLog (bind m k).
Proof.
  intros Hm Hk w. unfold bind.
  destruct (Hm w) as [r1 H1].
  destruct (m w) as [w1 [a|e]]; simpl in *.
  - destruct (Hk a w1) as [r2 H2]. exists (r1 ++ r2)%list.
    by rewrite H2, H1, app_assoc.
  - eauto.
Qed.

Lemma appendsLog_tryCatch {A} (m : M A) (h : Thrown -> M A) :
  appendsLog m -> (forall e, appendsLog (h e)) -> appendsLog (tryCatch m h).
Proof.
  intros Hm Hh w. unfold tryCatch.
  destruct (Hm w) as [r1 H1].
  destruct (m w) as [w1 [a|e]]; simpl in *.
  - eauto.
  - destruct (Hh e w1) as [r2 H2]. exists (r1 ++ r2)%list.
    by rewrite H2, H1, app_assoc.
Qed.

Lemma appendsLog_pure {A} (f : World -> A) (g : World -> World) :
  (forall w, oplog (g w) = oplog w) ->
  appendsLog (fun w => (g w, Return (f w))).
Proof. intros Hg w. exists []. simpl. by rewrite Hg, app_nil_r. Qed.

Lemma appendsLog_orThrow {A} (r : option A) e : appendsLog (orThrow r e).
Proof.
  destruct r; [apply appendsLog_ret | apply appendsLog_throw].
Qed.

Lemma appendsLog_findOne conds : appendsLog (User_findOne conds).
Proof.
  apply appendsLog_bind; [apply appendsLog_logOp | intros _].
  by apply (appendsLog_pure _ (fun w => w)).
Qed.

Lemma appendsLog_findById id : appendsLog (User_findById id).
Proof.
  apply appendsLog_bind; [apply appendsLog_logOp | intros _].
  by apply (appendsLog_pure _ (fun w => w)).
Qed.

Lemma appendsLog_findByIdAndUpdate id update :
  appendsLog (User_findByIdAndUpdate id update).
Proof.
  apply appendsLog_bind; [apply appendsLog_logOp | intros _].
  by apply (appendsLog_pure
              (fun w => update <$> find (hasId id) (users w))
              (fun w => mkWorld _ _ _)).
Qed.

Lemma appendsLog_save `{C : Collaborators} d : appendsLog (Doc_save d).
Proof.
  apply appendsLog_bind; [apply appendsLog_logOp | intros _].
  by apply (appendsLog_pure (fun _ => tt) (fun w => mkWorld _ _ _)).
Qed.

Lemma appendsLog_create `{C : Collaborators} d : appendsLog (User_create d).
Proof.
  apply appendsLog_bind; [apply appendsLog_logOp | intros _].
  by apply (appendsLog_pure
              (fun w => preSave None (<["_id" := VId (freshId (users w))]> d))
              (fun w => mkWorld _ _ _)).
Qed.

Create HintDb oplog.
#[export] Hint Resolve appendsLog_ret appendsLog_throw appendsLog_logOp
  appendsLog_orThrow appendsLog_findOne appendsLog_findById
  appendsLog_findByIdAndUpdate appendsLog_save appendsLog_create : oplog.

(** Walks a handler body: binds, handlers of a [try], and branches. *)
Ltac appends_log :=
  repeat
    first
      [ solve [auto with oplog]
      | apply appendsLog_bind; [|intros ?]
      | apply appendsLog_tryCatch; [|intros ?]
      | match goal with
        | |- appendsLog (if ?b then _ else _) => destruct b
        | |- appendsLog (match ?x with _ => _ end) => destruct x
        end ].

Lemma appendsLog_tokens `{C : Collaborators} userId now :
  appendsLog (generateAccessAndRefreshToken userId now).
Proof. unfold generateAccessAndRefreshToken. appends_log. Qed.

#[export] Hint Resolve appendsLog_tokens : oplog.

(** A handler that starts with a lookup by [findOne] logs that lookup
    first. *)
Lemma findOne_then {A} conds (k : option Doc -> M A) (w : World) :
  (forall found, appendsLog (k found)) ->
  exists rest,
    oplog ((found <- User_findOne conds ;; k found) w).1
    = (oplog w ++ OpFindOne :: rest)%list.
Proof.
  intros Hk. unfold User_findOne, bind, logOp. simpl.
  match goal with
  | |- context [k ?a ?w1] => destruct (Hk a w1) as [rest Hrest]
  end.
  exists rest. rewrite Hrest. simpl. by rewrite <- app_assoc.
Qed.

(** ** registerUser *)

Lemma bind_orThrow_Some {A B} (a : A) e (k : A -> M B) w :
  bind (orThrow (Some a) e) k w = k a w.
Proof. reflexivity. Qed.

Lemma bind_orThrow_None {A B} e (k : A -> M B) w :
  bind (orThrow None e) k w = (w, Throw e).
Proof. reflexivity. Qed.

(** X1: The validation of [registerUser] rejects a required field that is
    present and empty or whitespace-only, with status 400 and before any
    store access: the world, its access log included, is the one the handler
    started in. *)
Lemma register_blank_field_rejected `{C : Collaborators}
    (req : Request) (w : World) (field : string) (s : jsstring) :
  field ∈ ["fullname"; "email"; "username"; "password"] ->
  body req !! field = Some s ->
  whitespaceOnly s = true ->
  registerUserHandler req w
  = (w, Throw (ApiError 400 (lit "All field are required"))).
Proof.
  intros Hin Hs Hws.
  assert (Hblank : trimsToEmpty (body req !! field) = true).
  { apply trimsToEmpty_iff. eauto. }
  unfold registerUserHandler.
  replace (existsb trimsToEmpty _) with true; [reflexivity|].
  symmetry. simpl.
  repeat (apply elem_of_cons in Hin as [-> | Hin];
          [rewrite Hblank; simpl; by rewrite ?orb_true_r|]).
  by apply elem_of_nil in Hin.
Qed.

(** A required field that is absent from the request is not caught by the
    validation: the handler goes on to the store lookup. *)
Lemma register_absent_field_accepted `{C : Collaborators}
    (req : Request) (w : World) :
  (forall field, field ∈ ["fullname"; "email"; "username"; "password"] ->
     trimsToEmpty (body req !! field) = false) ->
  exists rest,
    oplog (registerUserHandler req w).1 = (oplog w ++ OpFindOne :: rest)%list.
Proof.
  intros Hok.
  assert (Hvalid : existsb trimsToEmpty
                     [body req !! "fullname"; body req !! "email";
                      body req !! "username"; body req !! "password"] = false).
  { simpl. rewrite !Hok by (rewrite !elem_of_cons; tauto). reflexivity. }
  unfold registerUserHandler. cbv zeta. rewrite Hvalid.
  apply findOne_then. intros existedUser. appends_log.
Qed.

(** C7: a register request that leaves [fullname] out, for a username that
    is taken, is not rejected by the validation: the store is looked up and
    the request fails with status 409. *)
Theorem register_absent_field_reaches_store :
  @registerUserHandler Demo.collaborators
    Demo.registerNoFullname Demo.registered
  = (mkWorld [Demo.alice] [] [OpFindOne],
     Throw (ApiError 409 (lit "user is already exist"))).
Proof. vm_compute. reflexivity. Qed.

(** C10: on every successful registration the HTTP status is 201 while the
    [statusCode] inside the JSON envelope is 200, so the two differ. *)
Theorem register_status_201_envelope_200 `{C : Collaborators}
    (req : Request) (w w' : World) (resp : Response) :
  registerUserHandler req w = (w', Return resp) ->
  status resp = 201 /\ statusCode (json resp) = 200
  /\ status resp <> statusCode (json resp).
Proof.
  intros H. unfold registerUserHandler in H. cbv zeta in H.
  returned H.
  injection H as _ <-. simpl. repeat split; lia.
Qed.

Lemma register_status_witness :
  status Demo.created = 201 /\ statusCode (json Demo.created) = 200
  /\ status Demo.created <> statusCode (json Demo.created).
Proof.
  apply (@register_status_201_envelope_200 Demo.collaborators
           Demo.registerAlice Demo.empty Demo.afterRegister Demo.created).
  vm_compute. reflexivity.
Defined.

(** The draft of [registerUser] answers with the same two statuses. *)
Lemma draft_register_statuses `{C : Collaborators}
    (req : Request) (w w' : World) (resp : Response) :
  Draft.registerUserHandler req w = (w', Return resp) ->
  status resp = 201 /\ statusCode (json resp) = 200.
Proof.
  intros H. unfold Draft.registerUserHandler in H. cbv zeta in H.
  returned H.
  injection H as _ <-. simpl. split; reflexivity.
Qed.

(** The draft validates the register fields by the same test. *)
Lemma draft_register_blank_field_rejected `{C : Collaborators}
    (req : Request) (w : World) (field : string) (s : jsstring) :
  field ∈ ["fullname"; "email"; "username"; "password"] ->
  body req !! field = Some s ->
  whitespaceOnly s = true ->
  Draft.registerUserHandler req w
  = (w, Throw (ApiError 400 (lit "All field are required"))).
Proof.
  intros Hin Hs Hws.
  assert (Hblank : trimsToEmpty (body req !! field) = true).
  { apply trimsToEmpty_iff. eauto. }
  unfold Draft.registerUserHandler.
  replace (existsb trimsToEmpty _) with true; [reflexivity|].
  symmetry. simpl.
  repeat (apply elem_of_cons in Hin as [-> | Hin];
          [rewrite Hblank; simpl; by rewrite ?orb_true_r|]).
  by apply elem_of_nil in Hin.
Qed.

(** ** The store primitives, run *)

Lemma run_findOne conds (w : World) :
  User_findOne conds w
  = (logged OpFindOne w,
     Return (find (fun d => existsb (matchesField d) conds) (users w))).
Proof. reflexivity. Qed.

Lemma run_findById id (w : World) :
  User_findById id w
  = (logged (OpFindById id) w, Return (find (hasId id) (users w))).
Proof. reflexivity. Qed.

Lemma run_findByIdAndUpdate id update (w : World) :
  User_findByIdAndUpdate id update w
  = (mkWorld (replaceFirst (hasId id) update (users w)) (subscriptions w)
       (oplog w ++ [OpFindByIdAndUpdate id]),
     Return (update <$> find (hasId id) (users w))).
Proof. reflexivity. Qed.

Lemma hasId_doc_id (id : option nat) (d : Doc) :
  hasId id d = true -> doc_id d = id.
Proof.
  destruct id as [i|]; simpl; [|discriminate].
  intros H%bool_decide_eq_true. unfold doc_id. by rewrite H.
Qed.

Lemma find_hasId (id : option nat) (l : list Doc) (d : Doc) :
  find (hasId id) l = Some d -> doc_id d = id /\ is_Some id.
Proof.
  intros H. apply find_some in H as [_ H].
  split; [by apply hasId_doc_id|].
  destruct id; [eauto | discriminate].
Qed.

Lemma replaceFirst_ext (p : Doc -> bool) (f g : Doc -> Doc) l d :
  find p l = Some d -> f d = g d -> replaceFirst p f l = replaceFirst p g l.
Proof.
  induction l as [|x l IH]; simpl; [discriminate|].
  destruct (p x); [intros [= ->] ->; reflexivity|].
  intros H1 H2. f_equal. by apply IH.
Qed.

Lemma find_replaceFirst (p : Doc -> bool) (f : Doc -> Doc) l d :
  find p l = Some d -> p (f d) = true ->
  find p (replaceFirst p f l) = Some (f d).
Proof.
  induction l as [|x l IH]; simpl; [discriminate|].
  destruct (p x) eqn:E.
  - intros [= ->] H. simpl. by rewrite H.
  - intros H1 H2. simpl. rewrite E. by apply IH.
Qed.

Lemma hasId_insert (id : option nat) (k : string) (v : Value) (d : Doc) :
  k <> "_id" -> hasId id (<[k := v]> d) = hasId id d.
Proof.
  intros Hk. destruct id as [i|]; simpl; [|reflexivity].
  by rewrite lookup_insert_ne.
Qed.

Lemma hasId_delete (id : option nat) (k : string) (d : Doc) :
  k <> "_id" -> hasId id (delete k d) = hasId id d.
Proof.
  intros Hk. destruct id as [i|]; simpl; [|reflexivity].
  by rewrite lookup_delete_ne.
Qed.

(** ** generateAccessAndRefreshToken *)

Section Tokens.

Context `{C : Collaborators}.

(** Setting the refresh token does not touch the password, so the pre-save
    hook leaves the document as it is. *)
Lemma preSave_refreshToken (u : Doc) (r : jsstring) :
  preSave (Some u) (<["refreshToken" := VStr r]> u)
  = <["refreshToken" := VStr r]> u.
Proof.
  unfold preSave. simpl. rewrite lookup_insert_ne by done.
  by rewrite bool_decide_eq_true_2.
Qed.

(** The mint, when the user exists and both tokens are signed: the refresh
    token replaces the stored one and both tokens are returned. *)
Lemma tokens_run (id : option nat) (now : nat) (w : World)
    (u : Doc) (a r : jsstring) :
  find (hasId id) (users w) = Some u ->
  generateAccessToken u now = Some a ->
  generateRefreshToken u now = Some r ->
  generateAccessAndRefreshToken id now w
  = (mkWorld
       (replaceFirst (hasId id) (insert "refreshToken" (VStr r)) (users w))
       (subscriptions w)
       (oplog w ++ [OpFindById id; OpSave id]),
     Return (a, r)).
Proof.
  intros Hu Ha Hr.
  destruct (find_hasId _ _ _ Hu) as [Hid _].
  assert (Hid' : doc_id (<["refreshToken" := VStr r]> u) = id).
  { unfold doc_id in *. by rewrite lookup_insert_ne. }
  unfold generateAccessAndRefreshToken, tryCatch.
  rewrite (bind_run _ _ _ _ _ (run_findById id w)).
  cbn [users logged]. rewrite Hu, bind_orThrow_Some.
  rewrite Ha, bind_orThrow_Some, Hr, bind_orThrow_Some. cbv zeta.
  unfold Doc_save, bind, logOp, ret, logged. cbn [users subscriptions oplog].
  rewrite Hid'.
  rewrite (replaceFirst_ext _ _ (insert "refreshToken" (VStr r)) _ u Hu
             (preSave_refreshToken u r)).
  by rewrite <- app_assoc.
Qed.

(** Whatever goes wrong in the mint surfaces as status 500. *)
Lemma tokens_throw (id : option nat) (now : nat) (w w' : World) e :
  generateAccessAndRefreshToken id now w = (w', Throw e) ->
  e = ApiError 500
        (lit "Something went wrong, while creating access and refresh token").
Proof.
  unfold generateAccessAndRefreshToken, tryCatch.
  match goal with |- context [bind ?m ?k w] => destruct (bind m k w) as [w1 [x|e1]] end.
  - discriminate.
  - unfold throw. by intros [= _ <-].
Qed.

(** A mint that returned found the user and stored the refresh token it
    returned. *)
Lemma tokens_returned (id : option nat) (now : nat) (w w' : World)
    (a r : jsstring) :
  generateAccessAndRefreshToken id now w = (w', Return (a, r)) ->
  exists u,
    find (hasId id) (users w) = Some u
    /\ generateAccessToken u now = Some a
    /\ generateRefreshToken u now = Some r
    /\ w' = mkWorld
              (replaceFirst (hasId id) (insert "refreshToken" (VStr r))
                 (users w))
              (subscriptions w)
              (oplog w ++ [OpFindById id; OpSave id]).
Proof.
  intros H.
  destruct (find (hasId id) (users w)) as [u|] eqn:Hu.
  - destruct (generateAccessToken u now) as [a'|] eqn:Ha.
    + destruct (generateRefreshToken u now) as [r'|] eqn:Hr.
      * rewrite (tokens_run id now w u a' r' Hu Ha Hr) in H.
        injection H as <- <- <-. eauto 10.
      * exfalso. revert H.
        unfold generateAccessAndRefreshToken, tryCatch.
        rewrite (bind_run _ _ _ _ _ (run_findById id w)).
        cbn [users logged]. rewrite Hu, bind_orThrow_Some.
        rewrite Ha, bind_orThrow_Some, Hr, bind_orThrow_None. discriminate.
    + exfalso. revert H.
      unfold generateAccessAndRefreshToken, tryCatch.
      rewrite (bind_run _ _ _ _ _ (run_findById id w)).
      cbn [users logged]. rewrite Hu, bind_orThrow_Some.
      rewrite Ha, bind_orThrow_None. discriminate.
  - exfalso. revert H.
    unfold generateAccessAndRefreshToken, tryCatch.
    rewrite (bind_run _ _ _ _ _ (run_findById id w)).
    cbn [users logged]. rewrite Hu, bind_orThrow_None. discriminate.
Qed.

End Tokens.

(** ** loginUser *)

Lemma bind_Throw_inv {A B} (m : M A) (k : A -> M B) w w' e :
  bind m k w = (w', Throw e) ->
  m w = (w', Throw e)
  \/ exists a w1, m w = (w1, Return a) /\ k a w1 = (w', Throw e).
Proof.
  unfold bind. destruct (m w) as [w1 [a|e1]]; [eauto|].
  intros [= -> ->]. by left.
Qed.

Section Login.

Context `{C : Collaborators}.

(** Past its validation, [loginUser] never answers 400. *)
Lemma login_not_400_after_validation now req w w' msg :
  negb (truthy (body req !! "username")) && negb (truthy (body req !! "email"))
  = false ->
  loginUserHandler now req w <> (w', Throw (ApiError 400 msg)).
Proof.
  intros Hv H. unfold loginUserHandler in H. cbv zeta in H.
  rewrite Hv in H.
  rewrite (bind_run _ _ _ _ _ (run_findOne _ w)) in H.
  destruct (find _ (users w)) as [u|]; [|discriminate H].
  destruct (isPasswordCorrect u (body req !! "password")) as [[|]|];
    [| discriminate H | discriminate H].
  rewrite bind_orThrow_Some in H. cbn [negb] in H.
  apply bind_Throw_inv in H as [H | (tokens & w1 & _ & H)].
  - apply tokens_throw in H. discriminate H.
  - rewrite (bind_run _ _ _ _ _ (run_findById _ w1)) in H. discriminate H.
Qed.

(** C5: [loginUser] fails with status 400 exactly when neither a username
    nor an email is supplied.  A request with a username and an empty email
    passes the validation and goes on to the user lookup, and when the user
    is found, the password is the right one and the tokens are minted, the
    answer has status 200. *)
Theorem login_validation (now : nat) (req : Request) (w : World) :
  ((exists msg, (loginUserHandler now req w).2 = Throw (ApiError 400 msg))
   <-> truthy (body req !! "username") = false
       /\ truthy (body req !! "email") = false)
  /\ (truthy (body req !! "username") = true ->
      body req !! "email" = Some [] ->
      (exists rest,
         oplog (loginUserHandler now req w).1
         = (oplog w ++ OpFindOne :: rest)%list)
      /\ forall u i,
           find (fun d => existsb (matchesField d)
                            [("username", body req !! "username");
                             ("email", body req !! "email")]) (users w)
           = Some u ->
           doc_id u = Some i ->
           isPasswordCorrect u (body req !! "password") = Some true ->
           (forall d, doc_id d = Some i ->
              is_Some (generateAccessToken d now)
              /\ is_Some (generateRefreshToken d now)) ->
           exists w' resp,
             loginUserHandler now req w = (w', Return resp)
             /\ status resp = 200).
Proof.
  split; [split|].
  - intros [msg H].
    destruct (negb (truthy (body req !! "username"))
              && negb (truthy (body req !! "email"))) eqn:Hv.
    + apply andb_true_iff in Hv as [H1 H2].
      by apply negb_true_iff in H1, H2.
    + exfalso. destruct (loginUserHandler now req w) as [w' o] eqn:Hrun.
      simpl in H. subst o.
      by apply (login_not_400_after_validation now req w w' msg Hv).
  - intros [H1 H2]. unfold loginUserHandler. cbv zeta.
    rewrite H1, H2. simpl. eauto.
  - intros Hu He. split.
    + unfold loginUserHandler. cbv zeta. rewrite Hu. cbn [negb andb].
      apply findOne_then. intros found. appends_log.
    + intros u i Hfind Hid Hpw Hmint.
      assert (Hi : hasId (Some i) u = true).
      { unfold doc_id in Hid. simpl.
        destruct (u !! "_id") as [[]|] eqn:E; try discriminate.
        injection Hid as ->. by apply bool_decide_eq_true. }
      destruct (find (hasId (Some i)) (users w)) as [u1|] eqn:Hu1.
      2:{ apply find_some in Hfind as [Hin _].
          eapply find_none in Hu1; [|exact Hin]. congruence. }
      destruct (Hmint u1) as [[a Ha] [r Hr]];
        [by apply (find_hasId _ _ _ Hu1)|].
      unfold loginUserHandler. cbv zeta. rewrite Hu. cbn [negb andb].
      rewrite (bind_run _ _ _ _ _ (run_findOne _ w)).
      cbn [users logged]. rewrite Hfind.
      rewrite Hpw, bind_orThrow_Some. cbn [negb]. rewrite Hid.
      erewrite bind_run by (apply (tokens_run (Some i) now _ u1 a r); eauto).
      rewrite (bind_run _ _ _ _ _ (run_findById _ _)).
      unfold ret. eexists _, _. split; reflexivity.
Qed.

End Login.

Lemma login_validation_witness :
  exists w' resp,
    @loginUserHandler Demo.collaborators 7 Demo.loginAlice Demo.registered
    = (w', Return resp)
    /\ status resp = 200.
Proof.
  destruct (@login_validation Demo.collaborators 7 Demo.loginAlice
              Demo.registered) as [_ H].
  destruct H as [_ H]; [vm_compute; reflexivity | vm_compute; reflexivity |].
  apply (H Demo.alice 1%nat); [vm_compute; reflexivity ..|].
  intros d Hd. simpl. unfold Demo.mint. rewrite Hd. split; eauto.
Defined.

(** X30: The draft of [loginUser] asks for both identifiers: it answers 400 as
    soon as one of them is missing or empty. *)
Lemma draft_login_requires_both `{C : Collaborators} now req w :
  truthy (body req !! "username") = false
  \/ truthy (body req !! "email") = false ->
  Draft.loginUserHandler now req w
  = (w, Throw (ApiError 400 (lit "username or email is required"))).
Proof.
  intros H. unfold Draft.loginUserHandler. cbv zeta.
  replace (negb (truthy (body req !! "username"))
           || negb (truthy (body req !! "email"))) with true; [reflexivity|].
  symmetry. apply orb_true_iff.
  destruct H as [-> | ->]; [by left | by right].
Qed.

(** ** changeCurrentPassword *)

(** C6: when the old password does not match the stored hash,
    [changeCurrentPassword] fails with status 400 and the stored records,
    the password hash among them, are the ones from before the call. *)
Theorem changePassword_wrong_old_password `{C : Collaborators}
    (req : Request) (w : World) (u : Doc) :
  find (hasId (user req ≫= doc_id)) (users w) = Some u ->
  isPasswordCorrect u (body req !! "oldPassword") = Some false ->
  exists w',
    changeCurrentPasswordHandler req w
    = (w', Throw (ApiError 400 (lit "Invalid Old Password")))
    /\ users w' = users w.
Proof.
  intros Hu Hpw.
  unfold changeCurrentPasswordHandler. cbv zeta.
  rewrite (bind_run _ _ _ _ _ (run_findById _ w)).
  cbn [users logged]. rewrite Hu, bind_orThrow_Some.
  rewrite Hpw, bind_orThrow_Some. cbn [negb].
  eexists. split; reflexivity.
Qed.

Lemma changePassword_witness :
  exists w',
    @changeCurrentPasswordHandler Demo.collaborators Demo.changeWrong
      Demo.registered
    = (w', Throw (ApiError 400 (lit "Invalid Old Password")))
    /\ users w' = users Demo.registered.
Proof.
  destruct (@changePassword_wrong_old_password Demo.collaborators
              Demo.changeWrong Demo.registered Demo.alice)
    as (w' & H1 & H2); [vm_compute; reflexivity ..|].
  exists w'. split; assumption.
Defined.

(** ** refreshAccessToken *)

Section Refresh.

Context `{C : Collaborators}.

(** The handler, once a non-empty token is presented and verified. *)
Lemma refresh_verified now req w (t : jsstring) (id : option nat) :
  incomingRefreshToken req = Some t ->
  isEmpty t = false ->
  jwt_verify t REFRESH_TOKEN_SECRET = inr id ->
  refreshAccessTokenHandler now req w
  = match find (hasId id) (users w) with
    | None =>
        (logged (OpFindById id) w,
         Throw (ApiError 401 (lit "invalid refersh token")))
    | Some u =>
        if bool_decide (u !! "refreshToken" = Some (VStr t))
        then
          match generateAccessAndRefreshToken (doc_id u) now
                  (logged (OpFindById id) w) with
          | (w', Return tokens) =>
              (w', Return
                     (mkResponse 200
                        [SetCookie "accessToken" tokens.1 (mkOptions true true);
                         SetCookie "refreshToken" tokens.2 (mkOptions true true)]
                        (ApiResponse 200 (DTokens tokens.1 tokens.2)
                           (lit "AccessToken refreshed"))))
          | (w', Throw e) => (w', Throw (rethrown e))
          end
        else
          (logged (OpFindById id) w,
           Throw (ApiError 401 (lit "Refresh Token is expired or used")))
    end.
Proof.
  intros Ht Hne Hv.
  unfold refreshAccessTokenHandler. rewrite Ht, Hne.
  unfold tryCatch. rewrite Hv, bind_ret.
  rewrite (bind_run _ _ _ _ _ (run_findById id w)).
  cbn [users logged].
  destruct (find (hasId id) (users w)) as [u|]; [|reflexivity].
  destruct (bool_decide (u !! "refreshToken" = Some (VStr t)));
    cbn [negb]; [|reflexivity].
  cbv zeta. unfold bind at 1.
  destruct (generateAccessAndRefreshToken _ _ _) as [w' [tokens|e]];
    reflexivity.
Qed.

(** Every failure of [refreshAccessToken] has status 401. *)
Lemma refresh_throws_401 now req w w' e :
  refreshAccessTokenHandler now req w = (w', Throw e) ->
  exists msg, e = ApiError 401 msg.
Proof.
  unfold refreshAccessTokenHandler.
  destruct (incomingRefreshToken req) as [t|]; [|intros [= _ <-]; eauto].
  destruct (isEmpty t); [intros [= _ <-]; eauto|].
  unfold tryCatch.
  match goal with
  | |- context [bind ?m ?k w] => destruct (bind m k w) as [w1 [r|e1]]
  end; [discriminate|].
  unfold throw. intros [= _ <-]. eauto.
Qed.

(** A refresh that succeeded: the token it was given decodes to a user whose
    stored refresh token is that very token, and the answer carries the
    tokens minted for that user. *)
Lemma refresh_returned now req w w' resp :
  refreshAccessTokenHandler now req w = (w', Return resp) ->
  exists t i u a r,
    incomingRefreshToken req = Some t
    /\ isEmpty t = false
    /\ jwt_verify t REFRESH_TOKEN_SECRET = inr (Some i)
    /\ find (hasId (Some i)) (users w) = Some u
    /\ u !! "refreshToken" = Some (VStr t)
    /\ generateAccessToken u now = Some a
    /\ generateRefreshToken u now = Some r
    /\ users w'
       = replaceFirst (hasId (Some i)) (insert "refreshToken" (VStr r))
           (users w)
    /\ data (json resp) = DTokens a r.
Proof.
  intros H.
  destruct (incomingRefreshToken req) as [t|] eqn:Ht.
  2:{ unfold refreshAccessTokenHandler in H. rewrite Ht in H. discriminate. }
  destruct (isEmpty t) eqn:Hne.
  { unfold refreshAccessTokenHandler in H. rewrite Ht, Hne in H.
    discriminate. }
  destruct (jwt_verify t REFRESH_TOKEN_SECRET) as [msg|id] eqn:Hv.
  { unfold refreshAccessTokenHandler, tryCatch in H.
    rewrite Ht, Hne, Hv, bind_throw in H. discriminate. }
  rewrite (refresh_verified now req w t id Ht Hne Hv) in H.
  destruct (find (hasId id) (users w)) as [u|] eqn:Hu; [|discriminate].
  destruct (find_hasId _ _ _ Hu) as [Hid [i ->]].
  destruct (bool_decide (u !! "refreshToken" = Some (VStr t))) eqn:Hst;
    [|discriminate].
  apply bool_decide_eq_true in Hst.
  rewrite Hid in H.
  destruct (generateAccessAndRefreshToken _ _ _) as [w1 [[a r]|e]] eqn:Hg;
    [|discriminate].
  injection H as <- <-.
  apply tokens_returned in Hg as (u1 & Hu1 & Ha & Hr & ->).
  cbn [users logged] in Hu1. rewrite Hu in Hu1. injection Hu1 as <-.
  exists t, i, u, a, r. repeat split; auto.
Qed.


End Refresh.



(** C2, as the code has it: when the token verifies and its user id matches
    no record, [refreshAccessToken] fails with status 401; the error thrown
    for the missing record is caught by the handler's own [catch], which
    rethrows its message under 401. *)
Theorem refresh_unknown_user_401 `{C : Collaborators}
    (now : nat) (req : Request) (w : World) (t : jsstring)
    (id : option nat) :
  incomingRefreshToken req = Some t ->
  isEmpty t = false ->
  jwt_verify t REFRESH_TOKEN_SECRET = inr id ->
  find (hasId id) (users w) = None ->
  refreshAccessTokenHandler now req w
  = (logged (OpFindById id) w,
     Throw (ApiError 401 (lit "invalid refersh token"))).
Proof.
  intros Ht Hne Hv Hu.
  by rewrite (refresh_verified now req w t id Ht Hne Hv), Hu.
Qed.

Lemma refresh_unknown_user_witness :
  @refreshAccessTokenHandler Demo.collaborators 8
    (Demo.refreshWith Demo.strangerToken) Demo.loggedIn
  = (logged (OpFindById (Some 9%nat)) Demo.loggedIn,
     Throw (ApiError 401 (lit "invalid refersh token"))).
Proof.
  apply (@refresh_unknown_user_401 Demo.collaborators 8
           (Demo.refreshWith Demo.strangerToken) Demo.loggedIn
           Demo.strangerToken (Some 9%nat));
    vm_compute; reflexivity.
Defined.

(** The token of a user without a record verifies, no record matches, and
    the refresh does not fail with status 404. *)
Lemma refresh_unknown_user_not_404 :
  @jwt_verify Demo.collaborators Demo.strangerToken
    (@REFRESH_TOKEN_SECRET Demo.collaborators) = inr (Some 9%nat)
  /\ find (hasId (Some 9%nat)) (users Demo.loggedIn) = None
  /\ ~ exists w' msg,
         @refreshAccessTokenHandler Demo.collaborators 8
           (Demo.refreshWith Demo.strangerToken) Demo.loggedIn
         = (w', Throw (ApiError 404 msg)).
Proof.
  split; [reflexivity|]. split; [vm_compute; reflexivity|].
  intros (w' & msg & H).
  apply refresh_throws_401 in H as [msg' H]. discriminate H.
Qed.

(** ** logoutUser *)

(** C4: a successful logout removes the [refreshToken] field from the
    caller's record (the field is absent afterwards, not null), so a refresh
    that presents the caller's token, valid until then, fails with status
    401. *)
Theorem logout_then_refresh `{C : Collaborators}
    (req req2 : Request) (w w0 : World) (caller : Doc) (t : jsstring)
    (now0 : nat) (resp0 : Response) :
  user req = Some caller ->
  incomingRefreshToken req2 = Some t ->
  jwt_verify t REFRESH_TOKEN_SECRET = inr (doc_id caller) ->
  refreshAccessTokenHandler now0 req2 w = (w0, Return resp0) ->
  exists w1 resp u1,
    logoutUserHandler req w = (w1, Return resp)
    /\ status resp = 200
    /\ find (hasId (doc_id caller)) (users w1) = Some u1
    /\ u1 !! "refreshToken" = None
    /\ forall now,
       exists w2,
         refreshAccessTokenHandler now req2 w1
         = (w2, Throw (ApiError 401 (lit "Refresh Token is expired or used"))).
Proof.
  intros Hcaller Ht Hv Hvalid.
  apply refresh_returned in Hvalid
    as (t' & i & u & a & r & Ht' & Hne & Hv' & Hu & _).
  rewrite Ht in Ht'. injection Ht' as <-.
  rewrite Hv in Hv'. injection Hv' as Hid.
  assert (Hu1 : find (hasId (Some i))
                  (replaceFirst (hasId (Some i)) (delete "refreshToken")
                     (users w))
                = Some (delete "refreshToken" u)).
  { apply find_replaceFirst; [exact Hu|].
    rewrite hasId_delete by done. by apply find_some in Hu as [_ Hu]. }
  unfold logoutUserHandler.
  rewrite Hcaller, bind_orThrow_Some.
  rewrite (bind_run _ _ _ _ _ (run_findByIdAndUpdate _ _ w)).
  cbv zeta. unfold ret. rewrite Hid.
  eexists _, _, _. split; [reflexivity|]. split; [reflexivity|].
  cbn [users]. split; [exact Hu1|]. split; [apply lookup_delete_eq|].
  intros now.
  erewrite (refresh_verified now req2 _ t (Some i) Ht Hne); [|by rewrite Hv, Hid].
  cbn [users]. rewrite Hu1.
  rewrite lookup_delete_eq, bool_decide_eq_false_2 by discriminate.
  eexists. reflexivity.
Qed.

Lemma logout_then_refresh_witness :
  exists w1 w2,
    (@logoutUserHandler Demo.logoutAlice Demo.loggedIn).1 = w1
    /\ @refreshAccessTokenHandler Demo.collaborators 9
         (Demo.refreshWith Demo.aliceToken) w1
       = (w2, Throw (ApiError 401 (lit "Refresh Token is expired or used"))).
Proof.
  destruct (@logout_then_refresh Demo.collaborators Demo.logoutAlice
              (Demo.refreshWith Demo.aliceToken) Demo.loggedIn
              Demo.afterRefresh
              (select ["password"; "refreshToken"] Demo.aliceLoggedIn)
              Demo.aliceToken 8 Demo.refreshed)
    as (w1 & resp & u1 & Hout & _ & _ & _ & Hre);
    [vm_compute; reflexivity ..|].
  destruct (Hre 9%nat) as [w2 H2].
  exists w1, w2. split; [by rewrite Hout | exact H2].
Defined.

(** ** getUserChannalProfile *)

Lemma filter_none {A} (P : A -> Prop) `{Hdec : !forall x, Decision (P x)}
    (l : list A) :
  (forall x, x ∈ l -> ~ P x) -> filter P l = [].
Proof.
  induction l as [|x l IH]; intros Hl; [reflexivity|].
  rewrite filter_cons_False by (apply Hl; left).
  apply IH. intros y Hy. apply Hl. by right.
Qed.

(** C8, as the code has it: when no user has the requested username, the
    channel query fails with status 400. *)
Theorem channel_not_found_400 `{C : Collaborators}
    (req : Request) (w : World) (username : jsstring) :
  params req !! "username" = Some username ->
  isEmpty (trim username) = false ->
  (forall d, d ∈ users w ->
     d !! "username" <> Some (VStr (toLowerCase username))) ->
  getUserChannalProfileHandler req w
  = (logged OpAggregate w, Throw (ApiError 400 (lit "Channel doesnot exists"))).
Proof.
  intros Hp Hne Hnone.
  unfold getUserChannalProfileHandler. cbv zeta. rewrite Hp, Hne.
  unfold User_aggregate, bind, logOp. cbn [subscriptions users logged].
  unfold channelPipeline. cbv zeta.
  rewrite (filter_none _ (users w)) by exact Hnone.
  reflexivity.
Qed.

Lemma channel_not_found_witness :
  @getUserChannalProfileHandler Demo.collaborators Demo.channelOfGhost
    Demo.registered
  = (logged OpAggregate Demo.registered,
     Throw (ApiError 400 (lit "Channel doesnot exists"))).
Proof.
  apply (@channel_not_found_400 Demo.collaborators Demo.channelOfGhost
           Demo.registered (lit "Ghost")).
  - vm_compute. reflexivity.
  - vm_compute. reflexivity.
  - intros d Hd. apply list_elem_of_singleton in Hd as ->.
    vm_compute. discriminate.
Defined.

(** No user is called ghost, and the channel query does not fail with
    status 404. *)
Lemma channel_not_found_not_404 :
  (forall d, d ∈ users Demo.registered ->
     d !! "username" <> Some (VStr (@toLowerCase Demo.collaborators (lit "Ghost"))))
  /\ ~ exists w' msg,
         @getUserChannalProfileHandler Demo.collaborators Demo.channelOfGhost
           Demo.registered
         = (w', Throw (ApiError 404 msg)).
Proof.
  split.
  - intros d Hd. apply list_elem_of_singleton in Hd as ->.
    vm_compute. discriminate.
  - intros (w' & msg & H). vm_compute in H. discriminate H.
Qed.

(** ** User views *)

Lemma select_excluded (excluded : list string) (d : Doc) (field : string) :
  field ∈ excluded -> select excluded d !! field = None.
Proof.
  unfold select. induction excluded as [|k l IH]; simpl.
  - intros H. by apply elem_of_nil in H.
  - intros H. destruct (decide (k = field)) as [->|Hne].
    + apply lookup_delete_eq.
    + rewrite lookup_delete_ne by done. apply IH.
      apply elem_of_cons in H as [->|H]; [done | exact H].
Qed.

Lemma select_kept (excluded : list string) (d : Doc) (field : string) :
  field ∉ excluded -> select excluded d !! field = d !! field.
Proof.
  unfold select. induction excluded as [|k l IH]; simpl; [done|].
  intros H. apply not_elem_of_cons in H as [Hne H].
  rewrite lookup_delete_ne by done. by apply IH.
Qed.

Lemma fmap_select_Some (excluded : list string) (found : option Doc) v :
  select excluded <$> found = Some v ->
  forall field, field ∈ excluded -> v !! field = None.
Proof.
  destruct found as [d|]; [|discriminate].
  intros [= <-] field Hin. by apply select_excluded.
Qed.

(** C3: the user view in the success response of register, login, account
    update, avatar update, cover-image update and current-user fetch has no
    password field, and the view of a response that returns a profile
    (register, login, current-user fetch) has no refreshToken field
    either. *)
Theorem user_view_hides_secrets `{C : Collaborators}
    (op : ViewOp) (now : nat) (caller : Doc) (req : Request)
    (w w' : World) (resp : Response) (v : Doc) :
  runViewOp op now caller req w = (w', Return resp) ->
  userView resp = Some v ->
  v !! "password" = None
  /\ (profileReturning op = true -> v !! "refreshToken" = None).
Proof.
  intros H Hv.
  assert (Hpw : "password" ∈ ["password"; "refreshToken"])
    by (rewrite !elem_of_cons; tauto).
  assert (Hrt : "refreshToken" ∈ ["password"; "refreshToken"])
    by (rewrite !elem_of_cons; tauto).
  assert (Hpw1 : "password" ∈ ["password"]) by (rewrite !elem_of_cons; tauto).
  destruct op; simpl in H.
  - unfold registerUserHandler in H. cbv zeta in H. returned H.
    injection H as _ <-. simpl in Hv. injection Hv as <-.
    match goal with
    | E : select _ <$> _ = Some _ |- _ =>
        pose proof (fmap_select_Some _ _ _ E) as Hsel
    end.
    split; [by apply Hsel | intros _; by apply Hsel].
  - unfold loginUserHandler in H. cbv zeta in H. returned H.
    unfold User_findById, bind, logOp, ret in H. simpl in H.
    injection H as _ <-. simpl in Hv.
    pose proof (fmap_select_Some _ _ _ Hv) as Hsel.
    split; [by apply Hsel | intros _; by apply Hsel].
  - unfold updateUserAccountHandler in H. cbv zeta in H. returned H.
    unfold ret in H. injection H as _ <-. simpl in Hv.
    split; [by apply (fmap_select_Some _ _ _ Hv) | discriminate].
  - unfold updateUserAvatarHandler in H. cbv zeta in H. returned H.
    unfold ret in H. injection H as _ <-. simpl in Hv.
    split; [by apply (fmap_select_Some _ _ _ Hv) | discriminate].
  - unfold updateUserCoverImageHandler in H. cbv zeta in H. returned H.
    unfold ret in H. injection H as _ <-. simpl in Hv.
    split; [by apply (fmap_select_Some _ _ _ Hv) | discriminate].
  - unfold getCurrentUserHandler, ret in H. injection H as _ <-.
    simpl in Hv. injection Hv as <-.
    split; [|intros _];
      by apply (select_excluded ["password"; "refreshToken"] caller).
Qed.

Lemma user_view_witness :
  delete "password" Demo.alice !! "password" = None
  /\ (profileReturning Register = true ->
      delete "password" Demo.alice !! "refreshToken" = None).
Proof.
  apply (@user_view_hides_secrets Demo.collaborators Register 0 ∅
           Demo.registerAlice Demo.empty Demo.afterRegister Demo.created).
  - vm_compute. reflexivity.
  - vm_compute. reflexivity.
Defined.

(** X23: The update operations exclude the password only: a refresh token that is
    stored is part of the record they answer with. *)
Lemma update_account_keeps_refreshToken `{C : Collaborators}
    (req : Request) (w : World) (u : Doc) (token : Value) :
  truthy (body req !! "fullname") = true ->
  truthy (body req !! "email") = true ->
  find (hasId (user req ≫= doc_id)) (users w) = Some u ->
  u !! "refreshToken" = Some token ->
  exists w' resp v,
    updateUserAccountHandler req w = (w', Return resp)
    /\ userView resp = Some v
    /\ v !! "refreshToken" = Some token.
Proof.
  intros Hf He Hu Ht.
  unfold updateUserAccountHandler. cbv zeta. rewrite Hf, He. cbn [negb orb].
  rewrite (bind_run _ _ _ _ _ (run_findByIdAndUpdate _ _ w)).
  rewrite Hu. unfold ret. eexists _, _, _.
  split; [reflexivity|]. split; [reflexivity|].
  rewrite select_kept by (rewrite !elem_of_cons, elem_of_nil; intros [|[]]; done).
  destruct (body req !! "fullname") as [f|]; [|discriminate].
  destruct (body req !! "email") as [e|]; [|discriminate].
  simpl. by rewrite !lookup_insert_ne.
Qed.

(** * Further properties of the controller *)

(** ** Documents *)

Lemma lookup_setField_eq (k : string) (v : option jsstring) (d : Doc) :
  setField k v d !! k = VStr <$> v.
Proof.
  destruct v; simpl; [apply lookup_insert_eq | apply lookup_delete_eq].
Qed.

Lemma lookup_setField_ne (k k' : string) (v : option jsstring) (d : Doc) :
  k <> k' -> setField k v d !! k' = d !! k'.
Proof.
  intros Hne. destruct v; simpl;
    [by apply lookup_insert_ne | by apply lookup_delete_ne].
Qed.


(** Reads a field through the updates that built a document. *)
Ltac read_field :=
  repeat first
    [ rewrite lookup_setField_ne by done
    | rewrite lookup_insert_ne by done
    | rewrite lookup_delete_ne by done ];
  rewrite ?lookup_setField_eq, ?lookup_insert_eq, ?lookup_delete_eq.

Lemma hasId_setField (id : option nat) (k : string) (v : option jsstring)
    (d : Doc) :
  k <> "_id" -> hasId id (setField k v d) = hasId id d.
Proof.
  intros Hk. destruct v; simpl; [by apply hasId_insert | by apply hasId_delete].
Qed.




Lemma run_create `{C : Collaborators} (fields : Doc) (w : World) :
  User_create fields w
  = (mkWorld
       (users w
        ++ [preSave None (<["_id" := VId (freshId (users w))]> fields)])%list
       (subscriptions w) (oplog w ++ [OpCreate]),
     Return (preSave None (<["_id" := VId (freshId (users w))]> fields))).
Proof. reflexivity. Qed.

(** ** registerUser, beyond its validation *)

Section Register.

Context `{C : Collaborators}.

(** X2: The duplicate check of [registerUser], for a request that passes the
    validation: the request is refused with status 409, and nothing is
    written, when a stored user has the email or the username as typed; when
    no stored user has, the request is never refused as a duplicate. *)
Theorem register_conflict (req : Request) (w : World) :
  existsb trimsToEmpty
    [body req !! "fullname"; body req !! "email";
     body req !! "username"; body req !! "password"] = false ->
  (is_Some (find (fun d => existsb (matchesField d)
                             [("email", body req !! "email");
                              ("username", body req !! "username")])
              (users w)) ->
   registerUserHandler req w
   = (logged OpFindOne w, Throw (ApiError 409 (lit "user is already exist"))))
  /\ (find (fun d => existsb (matchesField d)
                       [("email", body req !! "email");
                        ("username", body req !! "username")])
        (users w) = None ->
      forall w' msg,
        registerUserHandler req w <> (w', Throw (ApiError 409 msg))).
Proof.
  intros Hv. split.
  - intros Hsome. unfold registerUserHandler. cbv zeta. rewrite Hv.
    rewrite (bind_run _ _ _ _ _ (run_findOne _ w)). cbn [users logged].
    by rewrite bool_decide_eq_true_2.
  - intros Hnone w' msg H. unfold registerUserHandler in H. cbv zeta in H.
    rewrite Hv in H.
    rewrite (bind_run _ _ _ _ _ (run_findOne _ w)) in H.
    cbn [users logged] in H. rewrite Hnone in H.
    rewrite bool_decide_eq_false_2 in H by (intros [? ?]; discriminate).
    apply bind_Throw_inv in H as [H | (p & w1 & _ & H)].
    + destruct (files req) as [fs|]; [|discriminate H].
      destruct (fs !! "avatar"); discriminate H.
    + destruct (negb (truthy p)); [discriminate H|].
      destruct (uploadOnCloudinary p); [|discriminate H].
      destruct (body req !! "username"); [|discriminate H].
      cbn [fmap option_fmap option_map] in H.
      rewrite bind_orThrow_Some, (bind_run _ _ _ _ _ (run_create _ w1)) in H.
      rewrite (bind_run _ _ _ _ _ (run_findById _ _)) in H.
      destruct (select _ <$> _); discriminate H.
Qed.

(** X3: Without an avatar file, that is without uploaded files at all or with an
    avatar list whose first entry is missing or has an empty path,
    [registerUser] answers 400 after the duplicate check, and no user is
    created. *)
Theorem register_requires_avatar (req : Request) (w : World) :
  existsb trimsToEmpty
    [body req !! "fullname"; body req !! "email";
     body req !! "username"; body req !! "password"] = false ->
  find (fun d => existsb (matchesField d)
                   [("email", body req !! "email");
                    ("username", body req !! "username")])
    (users w) = None ->
  files req = None
  \/ (exists fs l,
        files req = Some fs /\ fs !! "avatar" = Some l
        /\ truthy (firstPath l) = false) ->
  registerUserHandler req w
  = (logged OpFindOne w, Throw (ApiError 400 (lit "Avatar files is reqiured"))).
Proof.
  intros Hv Hnone Hfiles. unfold registerUserHandler. cbv zeta. rewrite Hv.
  rewrite (bind_run _ _ _ _ _ (run_findOne _ w)). cbn [users logged].
  rewrite Hnone, bool_decide_eq_false_2 by (intros [? ?]; discriminate).
  destruct Hfiles as [-> | (fs & l & -> & Hl & Hp)].
  - reflexivity.
  - rewrite Hl.
    rewrite (bind_run _ _ _ (logged OpFindOne w) (firstPath l)) by reflexivity.
    rewrite Hp. reflexivity.
Qed.

(** X4: When files were uploaded but none under the [avatar] field, the
    controller's [registerUser] does not answer 400: reading the first entry
    of the missing list throws a [TypeError].  The draft tests the list
    first and answers 400. *)
Theorem register_files_without_avatar (req : Request) (w : World)
    (fs : gmap string (list File)) :
  existsb trimsToEmpty
    [body req !! "fullname"; body req !! "email";
     body req !! "username"; body req !! "password"] = false ->
  find (fun d => existsb (matchesField d)
                   [("email", body req !! "email");
                    ("username", body req !! "username")])
    (users w) = None ->
  files req = Some fs ->
  fs !! "avatar" = None ->
  registerUserHandler req w = (logged OpFindOne w, Throw TypeError)
  /\ Draft.registerUserHandler req w
     = (logged OpFindOne w,
        Throw (ApiError 400 (lit "Avatar files is reqiured"))).
Proof.
  intros Hv Hnone Hfs Hav. split.
  - unfold registerUserHandler. cbv zeta. rewrite Hv.
    rewrite (bind_run _ _ _ _ _ (run_findOne _ w)). cbn [users logged].
    rewrite Hnone, bool_decide_eq_false_2 by (intros [? ?]; discriminate).
    rewrite Hfs, Hav. reflexivity.
  - unfold Draft.registerUserHandler. cbv zeta. rewrite Hv.
    rewrite (bind_run _ _ _ _ _ (run_findOne _ w)). cbn [users logged].
    rewrite Hnone, bool_decide_eq_false_2 by (intros [? ?]; discriminate).
    rewrite Hfs, Hav. reflexivity.
Qed.


End Register.

(** ** What a stored record keeps *)

(** An update that one projection does not see leaves the collection as it
    was, under that projection. *)
Lemma replaceFirst_map (g : Doc -> Doc) (p : Doc -> bool) (f : Doc -> Doc)
    (l : list Doc) :
  (forall d, g (f d) = g d) -> map g (replaceFirst p f l) = map g l.
Proof.
  intros Hg. induction l as [|x l IH]; simpl; [reflexivity|].
  destruct (p x); simpl; [by rewrite Hg | by rewrite IH].
Qed.

(** The same for an update that the projection does not see on the record
    it hits. *)
Lemma replaceFirst_map_found (g : Doc -> Doc) (p : Doc -> bool)
    (f : Doc -> Doc) (l : list Doc) (u : Doc) :
  find p l = Some u -> g (f u) = g u ->
  map g (replaceFirst p f l) = map g l.
Proof.
  intros Hu Hg. induction l as [|x l IH]; simpl in *; [reflexivity|].
  destruct (p x); simpl.
  - injection Hu as ->. by rewrite Hg.
  - f_equal. by apply IH.
Qed.

(** ** generateAccessAndRefreshToken *)

Section TokenPairs.

Context `{C : Collaborators}.

(** Whatever the outcome of the mint, the collection changes in
    [refreshToken] fields only. *)
Lemma tokens_touch_refreshToken_only (id : option nat) (now : nat)
    (w w' : World) (o : Outcome (jsstring * jsstring)) :
  generateAccessAndRefreshToken id now w = (w', o) ->
  map (delete "refreshToken") (users w') = map (delete "refreshToken") (users w)
  /\ subscriptions w' = subscriptions w
  /\ (forall e, o = Throw e -> users w' = users w).
Proof.
  intros H.
  destruct (find (hasId id) (users w)) as [u|] eqn:Hu.
  2:{ revert H. unfold generateAccessAndRefreshToken, tryCatch.
      rewrite (bind_run _ _ _ _ _ (run_findById id w)).
      cbn [users logged]. rewrite Hu, bind_orThrow_None.
      intros [= <- <-]. auto. }
  destruct (generateAccessToken u now) as [a|] eqn:Ha.
  2:{ revert H. unfold generateAccessAndRefreshToken, tryCatch.
      rewrite (bind_run _ _ _ _ _ (run_findById id w)).
      cbn [users logged]. rewrite Hu, bind_orThrow_Some.
      rewrite Ha, bind_orThrow_None.
      intros [= <- <-]. auto. }
  destruct (generateRefreshToken u now) as [r|] eqn:Hr.
  2:{ revert H. unfold generateAccessAndRefreshToken, tryCatch.
      rewrite (bind_run _ _ _ _ _ (run_findById id w)).
      cbn [users logged]. rewrite Hu, bind_orThrow_Some.
      rewrite Ha, bind_orThrow_Some, Hr, bind_orThrow_None.
      intros [= <- <-]. auto. }
  rewrite (tokens_run id now w u a r Hu Ha Hr) in H.
  injection H as <- <-. cbn [users subscriptions].
  split; [|split; [reflexivity | discriminate]].
  apply replaceFirst_map. intros d. apply delete_insert_eq.
Qed.

Lemma tokens_fail (id : option nat) (now : nat) (w : World) :
  find (hasId id) (users w) = None
  \/ (exists u, find (hasId id) (users w) = Some u
                 /\ (generateAccessToken u now = None
                     \/ generateRefreshToken u now = None)) ->
  exists w',
    generateAccessAndRefreshToken id now w
    = (w', Throw (ApiError 500
         (lit "Something went wrong, while creating access and refresh token")))
    /\ users w' = users w.
Proof.
  intros Hfail.
  destruct (generateAccessAndRefreshToken id now w) as [w' [[a r]|e]] eqn:H.
  - exfalso. apply tokens_returned in H as (u & Hu & Ha & Hr & _).
    destruct Hfail as [Hn | (u' & Hu' & [Hn | Hn])]; congruence.
  - pose proof (tokens_throw _ _ _ _ _ H) as ->.
    destruct (tokens_touch_refreshToken_only _ _ _ _ _ H) as (_ & _ & Hu).
    exists w'. split; [reflexivity | by eapply Hu].
Qed.

(** X6: The mint fails with status 500, and stores nothing, when the user has no
    record, which includes a call without a user id, and when one of the two
    tokens cannot be signed; it fails in no other way. *)
Theorem tokens_failure_500 (id : option nat) (now : nat) (w : World) :
  (find (hasId id) (users w) = None
   \/ (exists u, find (hasId id) (users w) = Some u
                 /\ (generateAccessToken u now = None
                     \/ generateRefreshToken u now = None)))
  <-> exists w',
        generateAccessAndRefreshToken id now w
        = (w', Throw (ApiError 500
             (lit "Something went wrong, while creating access and refresh token")))
        /\ users w' = users w.
Proof.
  split; [apply tokens_fail|].
  intros (w' & H & _).
  destruct (find (hasId id) (users w)) as [u|] eqn:Hu; [|by left].
  right. exists u. split; [reflexivity|].
  destruct (generateAccessToken u now) as [a|] eqn:Ha; [|by left].
  destruct (generateRefreshToken u now) as [r|] eqn:Hr; [|by right].
  rewrite (tokens_run id now w u a r Hu Ha Hr) in H. discriminate.
Qed.

End TokenPairs.

(** ** loginUser, past its validation *)

Section LoginPaths.

Context `{C : Collaborators}.

(** X7: [loginUser] answers 404 when no stored user has the username or the
    email of the request, and 401 when the user is found and the password is
    not the right one; either way nothing is written. *)
Theorem login_rejections (now : nat) (req : Request) (w : World) :
  negb (truthy (body req !! "username")) && negb (truthy (body req !! "email"))
  = false ->
  (find (fun d => existsb (matchesField d)
                    [("username", body req !! "username");
                     ("email", body req !! "email")]) (users w) = None ->
   loginUserHandler now req w
   = (logged OpFindOne w, Throw (ApiError 404 (lit "User does not exist"))))
  /\ (forall u,
        find (fun d => existsb (matchesField d)
                         [("username", body req !! "username");
                          ("email", body req !! "email")]) (users w)
        = Some u ->
        isPasswordCorrect u (body req !! "password") = Some false ->
        loginUserHandler now req w
        = (logged OpFindOne w,
           Throw (ApiError 401 (lit "Invalid user credentials.")))).
Proof.
  intros Hv. split.
  - intros Hnone. unfold loginUserHandler. cbv zeta. rewrite Hv.
    rewrite (bind_run _ _ _ _ _ (run_findOne _ w)). cbn [users logged].
    by rewrite Hnone.
  - intros u Hu Hpw. unfold loginUserHandler. cbv zeta. rewrite Hv.
    rewrite (bind_run _ _ _ _ _ (run_findOne _ w)). cbn [users logged].
    rewrite Hu, Hpw, bind_orThrow_Some. reflexivity.
Qed.

Lemma bind_inv {A B} (m : M A) (k : A -> M B) w w' (o : Outcome B) :
  bind m k w = (w', o) ->
  (exists e, m w = (w', Throw e) /\ o = Throw e)
  \/ exists a w1, m w = (w1, Return a) /\ k a w1 = (w', o).
Proof.
  unfold bind. destruct (m w) as [w1 [a|e]]; [eauto|].
  intros [= -> <-]. eauto.
Qed.

(** What a run of [loginUser] does to the collection. *)
Lemma login_users (now : nat) (req : Request) (w w' : World)
    (o : Outcome Response) :
  loginUserHandler now req w = (w', o) ->
  map (delete "refreshToken") (users w') = map (delete "refreshToken") (users w)
  /\ subscriptions w' = subscriptions w
  /\ (forall e, o = Throw e -> users w' = users w).
Proof.
  intros H. unfold loginUserHandler in H. cbv zeta in H.
  destruct (negb _ && negb _); [by injection H as <- <-|].
  rewrite (bind_run _ _ _ _ _ (run_findOne _ w)) in H. cbn [users logged] in H.
  destruct (find _ (users w)) as [u|]; [|by injection H as <- <-].
  destruct (isPasswordCorrect u (body req !! "password")) as [[|]|];
    [| by injection H as <- <- | by injection H as <- <-].
  rewrite bind_orThrow_Some in H. cbn [negb] in H.
  apply bind_inv in H as [(e & H & ->) | (tokens & w1 & Hg & H)].
  - destruct (tokens_touch_refreshToken_only _ _ _ _ _ H) as (Hm & Hs & Hu).
    split; [exact Hm|]. split; [exact Hs|]. intros e' _. by eapply Hu.
  - destruct (tokens_touch_refreshToken_only _ _ _ _ _ Hg) as (Hm & Hs & _).
    rewrite (bind_run _ _ _ _ _ (run_findById _ w1)) in H.
    injection H as <- <-. cbn [users subscriptions logged].
    split; [exact Hm|]. split; [exact Hs | discriminate].
Qed.

(** X8: A login that fails, for whatever reason, leaves every stored record as
    it was. *)
Theorem login_failure_keeps_store (now : nat) (req : Request)
    (w w' : World) (e : Thrown) :
  loginUserHandler now req w = (w', Throw e) ->
  users w' = users w /\ subscriptions w' = subscriptions w.
Proof.
  intros H. destruct (login_users _ _ _ _ _ H) as (_ & Hs & Hu).
  split; [by eapply Hu | exact Hs].
Qed.

(** X9: A login that succeeds: the user matched the query and the password was
    the right one; the two cookies, HTTP-only, carry the very tokens of the
    body; and the refresh token handed out is the one now stored in the
    record the user in the answer was read from. *)
Theorem login_success (now : nat) (req : Request) (w w' : World)
    (resp : Response) :
  loginUserHandler now req w = (w', Return resp) ->
  exists u i stored a r,
    find (fun d => existsb (matchesField d)
                     [("username", body req !! "username");
                      ("email", body req !! "email")]) (users w) = Some u
    /\ isPasswordCorrect u (body req !! "password") = Some true
    /\ doc_id u = Some i
    /\ status resp = 200
    /\ setCookies resp
       = [SetCookie "accessToken" a (mkOptions true false);
          SetCookie "refreshToken" r (mkOptions true false)]
    /\ data (json resp)
       = DSession (Some (select ["password"; "refreshToken"] stored)) a r
    /\ find (hasId (Some i)) (users w') = Some stored
    /\ stored !! "refreshToken" = Some (VStr r).
Proof.
  intros H. unfold loginUserHandler in H. cbv zeta in H.
  returned H.
  rewrite run_findOne in Hm. injection Hm as <- Hfind.
  destruct (isPasswordCorrect g (body req !! "password")) as [ok|] eqn:Hpw;
    [|discriminate Hm0].
  injection Hm0 as <- <-. apply negb_false_iff in E1. subst ok.
  destruct a1 as [tokA tokR].
  apply tokens_returned in Hm1 as (u1 & Hu1 & Ha & Hr & ->).
  destruct (find_hasId _ _ _ Hu1) as [Hid1 [i Hi]].
  rewrite run_findById in Hm2. injection Hm2 as <- <-.
  injection H as <- <-. cbn [users logged fst snd] in *.
  assert (Hstored : find (hasId (doc_id g))
                      (replaceFirst (hasId (doc_id g))
                         (insert "refreshToken" (VStr tokR)) (users w))
                    = Some (<["refreshToken" := VStr tokR]> u1)).
  { apply find_replaceFirst; [exact Hu1|].
    rewrite hasId_insert by done. by apply find_some in Hu1 as [_ Hu1]. }
  exists g, i, (<["refreshToken" := VStr tokR]> u1), tokA, tokR.
  simpl. rewrite Hstored. split; [exact Hfind|]. split; [exact Hpw|].
  split; [exact Hi|]. rewrite Hi in Hstored |- *.
  repeat split; try done. apply lookup_insert_eq.
Qed.

End LoginPaths.

(** ** refreshAccessToken, its failures and its token source *)

Section RefreshPaths.

Context `{C : Collaborators}.

(** What a run of [refreshAccessToken] does to the collection. *)
Lemma refresh_users (now : nat) (req : Request) (w w' : World)
    (o : Outcome Response) :
  refreshAccessTokenHandler now req w = (w', o) ->
  map (delete "refreshToken") (users w') = map (delete "refreshToken") (users w)
  /\ subscriptions w' = subscriptions w
  /\ (forall e, o = Throw e -> users w' = users w).
Proof.
  intros H.
  destruct (incomingRefreshToken req) as [t|] eqn:Ht.
  2:{ unfold refreshAccessTokenHandler in H. rewrite Ht in H.
      by injection H as <- <-. }
  destruct (isEmpty t) eqn:Hne.
  { unfold refreshAccessTokenHandler in H. rewrite Ht, Hne in H.
    by injection H as <- <-. }
  destruct (jwt_verify t REFRESH_TOKEN_SECRET) as [msg|id] eqn:Hv.
  { unfold refreshAccessTokenHandler, tryCatch in H.
    rewrite Ht, Hne, Hv, bind_throw in H. by injection H as <- <-. }
  rewrite (refresh_verified now req w t id Ht Hne Hv) in H.
  destruct (find (hasId id) (users w)) as [u|]; [|by injection H as <- <-].
  destruct (bool_decide _); [|by injection H as <- <-].
  destruct (generateAccessAndRefreshToken _ _ _) as [w1 [tokens|e1]] eqn:Hg;
    injection H as <- <-;
    destruct (tokens_touch_refreshToken_only _ _ _ _ _ Hg) as (Hm & Hs & Hu).
  - split; [exact Hm|]. split; [exact Hs | discriminate].
  - split; [exact Hm|]. split; [exact Hs|]. intros e' _. by eapply Hu.
Qed.

(** X11: Every failure of [refreshAccessToken] has status 401, also the ones
    that were thrown with another status inside its [try], and leaves every
    stored record as it was. *)
Theorem refresh_failure_401_keeps_store (now : nat) (req : Request)
    (w w' : World) (e : Thrown) :
  refreshAccessTokenHandler now req w = (w', Throw e) ->
  (exists msg, e = ApiError 401 msg)
  /\ users w' = users w /\ subscriptions w' = subscriptions w.
Proof.
  intros H. split; [by eapply refresh_throws_401|].
  destruct (refresh_users _ _ _ _ _ H) as (_ & Hs & Hu).
  split; [by eapply Hu | exact Hs].
Qed.

(** Without a refresh token, in the cookie and in the body, or with an empty
    one, [refreshAccessToken] answers 401 at once: the store is not even
    read. *)
Theorem refresh_without_token (now : nat) (req : Request) (w : World) :
  truthy (incomingRefreshToken req) = false ->
  refreshAccessTokenHandler now req w
  = (w, Throw (ApiError 401 (lit "Unauthorized request"))).
Proof.
  unfold refreshAccessTokenHandler.
  destruct (incomingRefreshToken req) as [t|]; [|reflexivity].
  simpl. destruct (isEmpty t); [reflexivity | discriminate].
Qed.

(** X12: The cookie has precedence: when the [refreshToken] cookie is a non-empty
    string, the body of the request plays no part in the refresh; the body
    is consulted only when the cookie is absent or empty. *)
Theorem refresh_cookie_precedence (now : nat) (req : Request) (w : World)
    (otherBody : gmap string jsstring) :
  (truthy (cookies req !! "refreshToken") = true ->
   refreshAccessTokenHandler now
     (mkRequest otherBody (cookies req) (params req) (files req) (file req)
        (user req)) w
   = refreshAccessTokenHandler now req w)
  /\ (truthy (cookies req !! "refreshToken") = false ->
      incomingRefreshToken req = body req !! "refreshToken").
Proof.
  split; intros Hc.
  - unfold refreshAccessTokenHandler, incomingRefreshToken, js_or.
    cbn [cookies body]. by rewrite Hc.
  - unfold incomingRefreshToken, js_or. by rewrite Hc.
Qed.

(** X13: A token that does not verify is answered with 401 and the verifier's
    own message, or with the handler's default message when the verifier
    gave none; the store is not read. *)
Theorem refresh_verification_failure (now : nat) (req : Request) (w : World)
    (t msg : jsstring) :
  incomingRefreshToken req = Some t ->
  isEmpty t = false ->
  jwt_verify t REFRESH_TOKEN_SECRET = inl msg ->
  refreshAccessTokenHandler now req w
  = (w, Throw (ApiError 401
                 (if isEmpty msg then lit "Invalaid refresh token" else msg))).
Proof.
  intros Ht Hne Hv.
  unfold refreshAccessTokenHandler, tryCatch.
  rewrite Ht, Hne, Hv, bind_throw. reflexivity.
Qed.

(** X14: When the token is the stored one but a new pair cannot be minted, the
    mint's status 500 does not reach the caller: the handler's [catch]
    answers 401 with the mint's message, and the stored token stays. *)
Theorem refresh_mint_failure_is_401 (now : nat) (req : Request) (w : World)
    (t : jsstring) (id : option nat) (u : Doc) :
  incomingRefreshToken req = Some t ->
  isEmpty t = false ->
  jwt_verify t REFRESH_TOKEN_SECRET = inr id ->
  find (hasId id) (users w) = Some u ->
  u !! "refreshToken" = Some (VStr t) ->
  generateAccessToken u now = None \/ generateRefreshToken u now = None ->
  exists w',
    refreshAccessTokenHandler now req w
    = (w', Throw (ApiError 401
             (lit "Something went wrong, while creating access and refresh token")))
    /\ users w' = users w.
Proof.
  intros Ht Hne Hv Hu Hst Hmint.
  rewrite (refresh_verified now req w t id Ht Hne Hv), Hu.
  rewrite bool_decide_eq_true_2 by exact Hst.
  destruct (find_hasId _ _ _ Hu) as [-> _].
  destruct (tokens_fail id now (logged (OpFindById id) w))
    as (w' & -> & Hw').
  { right. exists u. split; [exact Hu | exact Hmint]. }
  exists w'. split; [reflexivity | exact Hw'].
Qed.

End RefreshPaths.

(** ** Login, then refresh *)

(** X10: The token pair of a login opens the refresh: when the verifier reads
    back the user id that a minted refresh token was signed for, and tokens
    can be minted again, a refresh that presents the refresh token of a
    successful login succeeds. *)
Theorem login_then_refresh `{C : Collaborators}
    (now now2 : nat) (req req2 : Request) (w w1 : World) (resp : Response)
    (v : option Doc) (a r : jsstring) :
  (forall d n token,
     generateRefreshToken d n = Some token ->
     isEmpty token = false
     /\ jwt_verify token REFRESH_TOKEN_SECRET = inr (doc_id d)) ->
  (forall d, is_Some (doc_id d) ->
     is_Some (generateAccessToken d now2)
     /\ is_Some (generateRefreshToken d now2)) ->
  loginUserHandler now req w = (w1, Return resp) ->
  data (json resp) = DSession v a r ->
  incomingRefreshToken req2 = Some r ->
  exists w2 resp2 a2 r2,
    refreshAccessTokenHandler now2 req2 w1 = (w2, Return resp2)
    /\ status resp2 = 200
    /\ data (json resp2) = DTokens a2 r2.
Proof.
  intros Hround Hmint Hlogin Hd Ht.
  unfold loginUserHandler in Hlogin. cbv zeta in Hlogin.
  returned Hlogin.
  rewrite run_findOne in Hm. injection Hm as <- Hfind.
  destruct (isPasswordCorrect g (body req !! "password")) as [ok|];
    [|discriminate Hm0].
  injection Hm0 as <- <-.
  destruct a2 as [tokA tokR].
  apply tokens_returned in Hm1 as (u1 & Hu1 & Ha & Hr & ->).
  rewrite run_findById in Hm2. injection Hm2 as <- <-.
  injection Hlogin as <- <-. simpl in Hd. injection Hd as _ -> ->.
  destruct (Hround u1 now r Hr) as [Hne Hv].
  destruct (find_hasId _ _ _ Hu1) as [Hid [i Hi]].
  cbn [users logged] in Hu1.
  assert (Hstored : find (hasId (doc_id g))
                      (replaceFirst (hasId (doc_id g))
                         (insert "refreshToken" (VStr r)) (users w))
                    = Some (<["refreshToken" := VStr r]> u1)).
  { apply find_replaceFirst; [exact Hu1|].
    rewrite hasId_insert by done. by apply find_some in Hu1 as [_ Hu1]. }
  rewrite Hid in Hv.
  rewrite (refresh_verified now2 req2 _ r (doc_id g) Ht Hne Hv).
  cbn [users logged]. rewrite Hstored.
  rewrite lookup_insert_eq, bool_decide_eq_true_2 by reflexivity.
  assert (Hid' : doc_id (<["refreshToken" := VStr r]> u1) = doc_id g).
  { unfold doc_id in *. by rewrite lookup_insert_ne. }
  rewrite Hid'.
  destruct (Hmint (<["refreshToken" := VStr r]> u1)) as [[a2 Ha2] [r2 Hr2]].
  { rewrite Hid', Hi. by eexists. }
  erewrite tokens_run; [| cbn [users logged]; exact Hstored | exact Ha2 | exact Hr2].
  eexists _, _, a2, r2. split; [reflexivity|]. split; reflexivity.
Qed.

(** ** logoutUser *)

Section Logout.

Context `{C : Collaborators}.

Lemma logout_run (req : Request) (w : World) (caller : Doc) :
  user req = Some caller ->
  logoutUserHandler req w
  = (mkWorld
       (replaceFirst (hasId (doc_id caller)) (delete "refreshToken") (users w))
       (subscriptions w)
       (oplog w ++ [OpFindByIdAndUpdate (doc_id caller)]),
     Return (mkResponse 200
               [ClearCookie "accessToken" (mkOptions true false);
                ClearCookie "refreshToken" (mkOptions true false)]
               (ApiResponse 200 DEmpty (lit "User Logged Out successfully")))).
Proof.
  intros Hc. unfold logoutUserHandler. rewrite Hc, bind_orThrow_Some.
  by rewrite (bind_run _ _ _ _ _ (run_findByIdAndUpdate _ _ w)).
Qed.

Lemma logout_without_identity_run (req : Request) (w : World) :
  user req = None ->
  logoutUserHandler req w = (w, Throw TypeError).
Proof.
  intros Hc. unfold logoutUserHandler. by rewrite Hc, bind_orThrow_None.
Qed.

(** X15: With an identity on the request, [logoutUser] always answers 200 and
    clears both cookies, also when the caller has no record any more or is
    not logged in: then the collection is left as it is. *)
Theorem logout_always_succeeds (req : Request) (w : World) (caller : Doc) :
  user req = Some caller ->
  exists w' resp,
    logoutUserHandler req w = (w', Return resp)
    /\ status resp = 200
    /\ setCookies resp
       = [ClearCookie "accessToken" (mkOptions true false);
          ClearCookie "refreshToken" (mkOptions true false)]
    /\ ((find (hasId (doc_id caller)) (users w) = None
         \/ exists u, find (hasId (doc_id caller)) (users w) = Some u
                      /\ u !! "refreshToken" = None) ->
        users w' = users w).
Proof.
  intros Hc. rewrite (logout_run req w caller Hc).
  eexists _, _. split; [reflexivity|]. split; [reflexivity|].
  split; [reflexivity|]. cbn [users].
  intros [Hn | (u & Hu & Hrt)].
  - clear Hc. induction (users w) as [|x l IH]; simpl in *; [reflexivity|].
    destruct (hasId (doc_id caller) x); [discriminate|]. f_equal. by apply IH.
  - clear Hc. induction (users w) as [|x l IH]; simpl in *; [discriminate|].
    destruct (hasId (doc_id caller) x).
    + injection Hu as ->. f_equal. by apply delete_id.
    + f_equal. by apply IH.
Qed.

(** Without an identity on the request, [logoutUser] throws a [TypeError]
    before it reaches the store. *)
Theorem logout_without_identity (req : Request) (w : World) :
  user req = None ->
  logoutUserHandler req w = (w, Throw TypeError).
Proof. apply logout_without_identity_run. Qed.

(** X16: Logging out twice leaves the records the first logout left. *)
Theorem logout_idempotent (req : Request) (w w1 w2 : World)
    (o1 o2 : Outcome Response) :
  logoutUserHandler req w = (w1, o1) ->
  logoutUserHandler req w1 = (w2, o2) ->
  users w2 = users w1 /\ o2 = o1.
Proof.
  destruct (user req) as [caller|] eqn:Hc.
  - rewrite (logout_run req w caller Hc), (logout_run req w1 caller Hc).
    intros [= <- <-] [= <- <-]. split; [|reflexivity]. cbn [users].
    clear Hc. induction (users w) as [|x l IH]; simpl; [reflexivity|].
    destruct (hasId (doc_id caller) x) eqn:Hx; simpl.
    + rewrite hasId_delete, Hx by done. by rewrite delete_delete_eq.
    + rewrite Hx. f_equal. exact IH.
  - rewrite !logout_without_identity_run by exact Hc.
    intros [= <- <-] [= <- <-]. auto.
Qed.

End Logout.

(** ** The session operations and the rest of the record *)

(** X17: Login, refresh and logout, however they end, change the collection in
    [refreshToken] fields only: with that field left out, the records are
    the ones from before, in the same order; the subscriptions are never
    touched. *)
Theorem session_changes_refreshToken_only `{C : Collaborators}
    (now : nat) (req : Request) (w w' : World) (o : Outcome Response) :
  loginUserHandler now req w = (w', o)
  \/ refreshAccessTokenHandler now req w = (w', o)
  \/ logoutUserHandler req w = (w', o) ->
  map (delete "refreshToken") (users w') = map (delete "refreshToken") (users w)
  /\ subscriptions w' = subscriptions w.
Proof.
  intros [H | [H | H]].
  - destruct (login_users _ _ _ _ _ H) as (Hm & Hs & _). auto.
  - destruct (refresh_users _ _ _ _ _ H) as (Hm & Hs & _). auto.
  - destruct (user req) as [caller|] eqn:Hc.
    + rewrite (logout_run req w caller Hc) in H. injection H as <- _.
      cbn [users subscriptions]. split; [|reflexivity].
      apply replaceFirst_map. intros d. apply delete_delete_eq.
    + rewrite (logout_without_identity_run req w Hc) in H.
      by injection H as <- _.
Qed.

(** ** changeCurrentPassword *)

Section Password.

Context `{C : Collaborators}.

(** X18: When the caller has no record, or the request carries no identity,
    [changeCurrentPassword] does not answer with an [ApiError]: calling the
    password check on the missing user throws a [TypeError]; nothing is
    written. *)
Theorem changePassword_missing_user (req : Request) (w : World) :
  find (hasId (user req ≫= doc_id)) (users w) = None ->
  changeCurrentPasswordHandler req w
  = (logged (OpFindById (user req ≫= doc_id)) w, Throw TypeError).
Proof.
  intros Hn. unfold changeCurrentPasswordHandler. cbv zeta.
  rewrite (bind_run _ _ _ _ _ (run_findById _ w)). cbn [users logged].
  by rewrite Hn, bind_orThrow_None.
Qed.

(** X19: [changeCurrentPassword], however it ends, changes the collection in
    [password] fields only: a password change leaves the stored refresh
    token, and with it the session, in place. *)
Theorem changePassword_changes_password_only (req : Request) (w w' : World)
    (o : Outcome Response) :
  changeCurrentPasswordHandler req w = (w', o) ->
  map (delete "password") (users w') = map (delete "password") (users w)
  /\ subscriptions w' = subscriptions w.
Proof.
  intros H. unfold changeCurrentPasswordHandler in H. cbv zeta in H.
  rewrite (bind_run _ _ _ _ _ (run_findById _ w)) in H.
  cbn [users logged] in H.
  destruct (find _ (users w)) as [u|] eqn:Hu; [|by injection H as <- _].
  rewrite bind_orThrow_Some in H.
  destruct (isPasswordCorrect u (body req !! "oldPassword")) as [[|]|];
    [| by injection H as <- _ | by injection H as <- _].
  rewrite bind_orThrow_Some in H. cbn [negb] in H.
  unfold Doc_save, bind, logOp, ret in H. injection H as <- _.
  cbn [users subscriptions logged]. split; [|reflexivity].
  set (u' := setField "password" (body req !! "newPassword") u).
  assert (Hu' : delete "password" u' = delete "password" u).
  { unfold u', setField. destruct (body req !! "newPassword");
      [apply delete_insert_eq | apply delete_delete_eq]. }
  assert (Hid : doc_id u' = user req ≫= doc_id).
  { destruct (find_hasId _ _ _ Hu) as [<- _].
    unfold doc_id, u'. by rewrite lookup_setField_ne. }
  rewrite Hid.
  apply (replaceFirst_map_found _ _ _ _ u Hu).
  rewrite <- Hu'. unfold preSave. destruct (bool_decide _); [reflexivity|].
  destruct (u' !! "password") as [[]|]; try reflexivity.
  apply delete_insert_eq.
Qed.

End Password.

(** ** updateUserAccount *)

Section Account.

Context `{C : Collaborators}.

(** X20: [updateUserAccount] fails exactly when the full name or the email is
    missing or empty; it then answers 400 and has not reached the store. *)
Theorem update_account_validation (req : Request) (w : World) :
  (truthy (body req !! "fullname") = false
   \/ truthy (body req !! "email") = false ->
   updateUserAccountHandler req w
   = (w, Throw (ApiError 400 (lit "All Fields are required"))))
  /\ (forall w' e,
        updateUserAccountHandler req w = (w', Throw e) ->
        truthy (body req !! "fullname") = false
        \/ truthy (body req !! "email") = false).
Proof.
  split.
  - intros Hf. unfold updateUserAccountHandler. cbv zeta.
    replace (negb (truthy (body req !! "fullname"))
             || negb (truthy (body req !! "email"))) with true; [reflexivity|].
    symmetry. apply orb_true_iff.
    destruct Hf as [-> | ->]; [by left | by right].
  - intros w' e H. unfold updateUserAccountHandler in H. cbv zeta in H.
    destruct (truthy (body req !! "fullname")); [|by left].
    destruct (truthy (body req !! "email")); [|by right].
    cbn [negb orb] in H.
    rewrite (bind_run _ _ _ _ _ (run_findByIdAndUpdate _ _ w)) in H.
    discriminate H.
Qed.

(** X21: A successful account update of a caller with a record: the answer shows
    the new full name and email and no password; every other field of the
    answer is the stored one; and the stored record keeps its password. *)
Theorem update_account_success (req : Request) (w : World)
    (fullname email : jsstring) (u : Doc) :
  body req !! "fullname" = Some fullname ->
  body req !! "email" = Some email ->
  isEmpty fullname = false ->
  isEmpty email = false ->
  find (hasId (user req ≫= doc_id)) (users w) = Some u ->
  exists w' resp v u',
    updateUserAccountHandler req w = (w', Return resp)
    /\ status resp = 200
    /\ userView resp = Some v
    /\ v !! "fullname" = Some (VStr fullname)
    /\ v !! "email" = Some (VStr email)
    /\ v !! "password" = None
    /\ (forall field,
          field <> "fullname" -> field <> "email" -> field <> "password" ->
          v !! field = u !! field)
    /\ find (hasId (user req ≫= doc_id)) (users w') = Some u'
    /\ u' !! "password" = u !! "password"
    /\ v = delete "password" u'.
Proof.
  intros Hf He Hfn Hen Hu.
  unfold updateUserAccountHandler. cbv zeta. rewrite Hf, He.
  cbn [truthy]. rewrite Hfn, Hen. cbn [negb orb].
  rewrite (bind_run _ _ _ _ _ (run_findByIdAndUpdate _ _ w)).
  rewrite Hu. unfold ret. cbn [setField fmap option_fmap option_map].
  eexists _, _, _, _. split; [reflexivity|]. cbn [status userView json data
    ApiResponse select foldr users].
  split; [reflexivity|]. split; [reflexivity|].
  split; [by read_field|]. split; [by read_field|].
  split; [apply lookup_delete_eq|].
  split; [intros field H1 H2 H3; by read_field|].
  split.
  - apply (find_replaceFirst _ (fun d => <["fullname" := VStr fullname]>
                                          (<["email" := VStr email]> d)) _ u Hu).
    rewrite !hasId_insert by done. by apply find_some in Hu as [_ Hu].
  - split; [by read_field | reflexivity].
Qed.

(** X22: When the caller has no record, or the request carries no identity,
    [updateUserAccount] still answers 200: the user in the answer is null,
    and nothing is written. *)
Theorem update_account_unknown_caller (req : Request) (w : World) :
  truthy (body req !! "fullname") = true ->
  truthy (body req !! "email") = true ->
  find (hasId (user req ≫= doc_id)) (users w) = None ->
  exists w' resp,
    updateUserAccountHandler req w = (w', Return resp)
    /\ status resp = 200
    /\ data (json resp) = DUser None
    /\ users w' = users w.
Proof.
  intros Hf He Hn.
  unfold updateUserAccountHandler. cbv zeta. rewrite Hf, He. cbn [negb orb].
  rewrite (bind_run _ _ _ _ _ (run_findByIdAndUpdate _ _ w)).
  rewrite Hn. unfold ret. eexists _, _. split; [reflexivity|].
  split; [reflexivity|]. split; [reflexivity|]. cbn [users].
  clear Hf He. induction (users w) as [|x l IH]; simpl in *; [reflexivity|].
  destruct (hasId _ x); [discriminate|]. f_equal. by apply IH.
Qed.

End Account.

(** ** updateUserAvatar and updateUserCoverImage *)

Section Images.

Context `{C : Collaborators}.

(** The three ways [updateUserAvatar] fails: 400 without a file path, a
    [TypeError] when the uploader returned nothing, 500 when the upload has
    no URL.  Each of them happens before the store is reached. *)
Theorem update_avatar_errors (req : Request) (w : World) :
  (truthy (path <$> file req) = false ->
   updateUserAvatarHandler req w
   = (w, Throw (ApiError 400 (lit "Avatar is required"))))
  /\ (truthy (path <$> file req) = true ->
      uploadOnCloudinary (path <$> file req) = None ->
      updateUserAvatarHandler req w = (w, Throw TypeError))
  /\ (forall avatar,
        truthy (path <$> file req) = true ->
        uploadOnCloudinary (path <$> file req) = Some avatar ->
        isEmpty (url avatar) = true ->
        updateUserAvatarHandler req w
        = (w, Throw (ApiError 500 (lit "Error while uploading avatar")))).
Proof.
  unfold updateUserAvatarHandler. cbv zeta. repeat split.
  - by intros ->.
  - intros -> ->. reflexivity.
  - intros avatar -> -> Hurl. cbn [negb]. rewrite bind_orThrow_Some.
    by rewrite Hurl.
Qed.

(** X24: Neither image update leaves anything behind when it fails: a failure
    means the world, its access log included, is the one from before. *)
Theorem update_image_failure_writes_nothing (req : Request) (w w' : World)
    (e : Thrown) :
  updateUserAvatarHandler req w = (w', Throw e)
  \/ updateUserCoverImageHandler req w = (w', Throw e) ->
  w' = w.
Proof.
  intros [H | H].
  - unfold updateUserAvatarHandler in H. cbv zeta in H.
    destruct (negb _); [by injection H as <- _|].
    destruct (uploadOnCloudinary _) as [up|]; [|by injection H as <- _].
    rewrite bind_orThrow_Some in H.
    destruct (isEmpty (url up)); [by injection H as <- _|].
    rewrite (bind_run _ _ _ _ _ (run_findByIdAndUpdate _ _ w)) in H.
    discriminate H.
  - unfold updateUserCoverImageHandler in H. cbv zeta in H.
    destruct (negb _); [by injection H as <- _|].
    destruct (uploadOnCloudinary _) as [up|]; [|by injection H as <- _].
    rewrite bind_orThrow_Some in H.
    destruct (isEmpty (url up)); [by injection H as <- _|].
    rewrite (bind_run _ _ _ _ _ (run_findByIdAndUpdate _ _ w)) in H.
    discriminate H.
Qed.

(** X25: A successful avatar update stores the URL the uploader returned and
    changes no other field; the answer is the updated record without its
    password. *)
Theorem update_avatar_success (req : Request) (w w' : World)
    (resp : Response) :
  updateUserAvatarHandler req w = (w', Return resp) ->
  exists avatar,
    uploadOnCloudinary (path <$> file req) = Some avatar
    /\ isEmpty (url avatar) = false
    /\ map (delete "avatar") (users w') = map (delete "avatar") (users w)
    /\ data (json resp)
       = DUser (select ["password"]
                  <$> (insert "avatar" (VStr (url avatar))
                         <$> find (hasId (user req ≫= doc_id)) (users w)))
    /\ (forall u', find (hasId (user req ≫= doc_id)) (users w') = Some u' ->
          u' !! "avatar" = Some (VStr (url avatar))).
Proof.
  intros H. unfold updateUserAvatarHandler in H. cbv zeta in H.
  destruct (negb _); [discriminate H|].
  destruct (uploadOnCloudinary _) as [up|]; [|discriminate H].
  rewrite bind_orThrow_Some in H.
  destruct (isEmpty (url up)) eqn:Hurl; [discriminate H|].
  rewrite (bind_run _ _ _ _ _ (run_findByIdAndUpdate _ _ w)) in H.
  injection H as <- <-. cbn [users setField].
  exists up. split; [reflexivity|]. split; [exact Hurl|].
  split; [apply replaceFirst_map; intros d; apply delete_insert_eq|].
  split; [reflexivity|].
  intros u' Hu'.
  destruct (find (hasId (user req ≫= doc_id)) (users w)) as [u|] eqn:Hu.
  - rewrite (find_replaceFirst _ (setField "avatar" (Some (url up))) _ u Hu)
      in Hu'.
    + injection Hu' as <-. apply lookup_insert_eq.
    + rewrite hasId_setField by done. by apply find_some in Hu as [_ Hu].
  - exfalso. induction (users w) as [|x l IH]; simpl in *;
      [discriminate|].
    destruct (hasId _ x) eqn:Hx; [discriminate|]. simpl in Hu'.
    rewrite Hx in Hu'. by apply IH.
Qed.

End Images.

(** ** getUserChannalProfile *)

Section Channel.

Context `{C : Collaborators}.

Lemma project_kept (fields : list string) (d : Doc) (k : string) :
  k ∈ "_id" :: fields -> project fields d !! k = d !! k.
Proof.
  intros Hk. unfold project. rewrite map_lookup_filter.
  destruct (d !! k) as [x|]; simpl; [|reflexivity].
  by rewrite option_guard_True.
Qed.

Lemma project_dropped (fields : list string) (d : Doc) (k : string) :
  k ∉ "_id" :: fields -> project fields d !! k = None.
Proof.
  intros Hk. unfold project. apply map_lookup_filter_None.
  right. intros x _. exact Hk.
Qed.

(** The fields of the [$project] stage. *)
Definition channelFields : list string :=
  ["fullname"; "username"; "subscribersCount"; "channelsSubscribedToCount";
   "isSubscribed"; "avatar"; "coverImage"; "email"].

(** The pipeline, document by document. *)
Lemma channelPipeline_map (subs : list Doc) (viewer : option nat)
    (username : jsstring) (us : list Doc) :
  channelPipeline subs viewer username us
  = map (fun d => project channelFields
                    (addFields viewer (lookupSubscriptions subs "channel" d)
                       (lookupSubscriptions subs "subscriber" d) d))
      (filter (fun d => d !! "username" = Some (VStr username)) us).
Proof.
  unfold channelPipeline. cbv zeta. by rewrite !map_map.
Qed.

(** The handler, for a username that is not blank. *)
Lemma channel_run (req : Request) (w : World) (username : jsstring) :
  params req !! "username" = Some username ->
  isEmpty (trim username) = false ->
  getUserChannalProfileHandler req w
  = match channelPipeline (subscriptions w) (user req ≫= doc_id)
            (toLowerCase username) (users w) with
    | [] =>
        (logged OpAggregate w,
         Throw (ApiError 400 (lit "Channel doesnot exists")))
    | first :: _ =>
        (logged OpAggregate w,
         Return (mkResponse 200 []
                   (ApiResponse 200 (DChannel first)
                      (lit "user channel fetched successfully"))))
    end.
Proof.
  intros Hp Hne. unfold getUserChannalProfileHandler. cbv zeta.
  rewrite Hp, Hne. unfold User_aggregate, bind, logOp.
  cbn [subscriptions users logged].
  by destruct (channelPipeline _ _ _ _).
Qed.

(** X26: A request without a username parameter, or with one that is empty or
    all white space, is answered 400 before the store is read. *)
Theorem channel_blank_username (req : Request) (w : World) :
  params req !! "username" = None
  \/ (exists s, params req !! "username" = Some s /\ whitespaceOnly s = true) ->
  getUserChannalProfileHandler req w
  = (w, Throw (ApiError 400 (lit "Username is missing"))).
Proof.
  intros [Hn | (s & Hs & Hws)]; unfold getUserChannalProfileHandler; cbv zeta.
  - by rewrite Hn.
  - rewrite Hs. apply trim_nil_iff in Hws. by rewrite Hws.
Qed.

(** X27: The channel that is answered, for the first user [d] stored under the
    lower-cased username: it has neither password nor refresh token; the
    number of subscribers is not in it, because the pipeline adds it as
    [subscriberCount] and projects [subscribersCount]; the number of
    channels the user subscribed to is; the store is only read. *)
Theorem channel_profile_fields (req : Request) (w : World)
    (username : jsstring) (d : Doc) :
  params req !! "username" = Some username ->
  isEmpty (trim username) = false ->
  head (filter (fun d => d !! "username" = Some (VStr (toLowerCase username)))
          (users w)) = Some d ->
  exists resp c,
    getUserChannalProfileHandler req w = (logged OpAggregate w, Return resp)
    /\ status resp = 200
    /\ data (json resp) = DChannel c
    /\ c !! "username" = Some (VStr (toLowerCase username))
    /\ c !! "password" = None
    /\ c !! "refreshToken" = None
    /\ c !! "subscriberCount" = None
    /\ c !! "subscribersCount" = d !! "subscribersCount"
    /\ c !! "channelsSubscribedToCount"
       = Some (VNum (Z.of_nat
                       (length (filter
                                  (fun s => fieldOrNull s "subscriber"
                                            = fieldOrNull d "_id")
                                  (subscriptions w))))).
Proof.
  intros Hp Hne Hd.
  rewrite (channel_run req w username Hp Hne), channelPipeline_map.
  destruct (filter _ (users w)) as [|d0 rest] eqn:Hf; [discriminate|].
  injection Hd as ->. cbn [map].
  assert (Hname : d !! "username" = Some (VStr (toLowerCase username))).
  { assert (Hin : d ∈ filter (fun d => d !! "username"
                                      = Some (VStr (toLowerCase username)))
                    (users w)) by (rewrite Hf; left).
    by apply list_elem_of_filter in Hin as [Hin _]. }
  eexists _, _. split; [reflexivity|]. split; [reflexivity|].
  split; [reflexivity|].
  assert (Hin : forall k, k ∈ "_id" :: channelFields <->
                  k = "_id" \/ k = "fullname" \/ k = "username"
                  \/ k = "subscribersCount" \/ k = "channelsSubscribedToCount"
                  \/ k = "isSubscribed" \/ k = "avatar" \/ k = "coverImage"
                  \/ k = "email").
  { intros k. unfold channelFields. rewrite !elem_of_cons, elem_of_nil. tauto. }
  split.
  { rewrite project_kept by (apply Hin; tauto).
    unfold addFields. by rewrite !lookup_insert_ne. }
  split.
  { apply project_dropped. rewrite Hin.
    intros [H|[H|[H|[H|[H|[H|[H|[H|H]]]]]]]]; discriminate H. }
  split.
  { apply project_dropped. rewrite Hin.
    intros [H|[H|[H|[H|[H|[H|[H|[H|H]]]]]]]]; discriminate H. }
  split.
  { apply project_dropped. rewrite Hin.
    intros [H|[H|[H|[H|[H|[H|[H|[H|H]]]]]]]]; discriminate H. }
  split.
  { rewrite project_kept by (apply Hin; tauto).
    unfold addFields. by rewrite !lookup_insert_ne. }
  rewrite project_kept by (apply Hin; tauto).
  unfold addFields. rewrite lookup_insert_ne by done.
  by rewrite lookup_insert_eq.
Qed.

(** X28: [isSubscribed] in the answer is true exactly when some subscription
    links the viewer, as subscriber, to the channel. *)
Theorem channel_isSubscribed (req : Request) (w : World)
    (username : jsstring) (d : Doc) :
  params req !! "username" = Some username ->
  isEmpty (trim username) = false ->
  head (filter (fun d => d !! "username" = Some (VStr (toLowerCase username)))
          (users w)) = Some d ->
  exists resp c b,
    getUserChannalProfileHandler req w = (logged OpAggregate w, Return resp)
    /\ data (json resp) = DChannel c
    /\ c !! "isSubscribed" = Some (VBool b)
    /\ (b = true <->
        exists s, s ∈ subscriptions w
                  /\ fieldOrNull s "channel" = fieldOrNull d "_id"
                  /\ s !! "subscriber" = Some (idValue (user req ≫= doc_id))).
Proof.
  intros Hp Hne Hd.
  rewrite (channel_run req w username Hp Hne), channelPipeline_map.
  destruct (filter _ (users w)) as [|d0 rest] eqn:Hf; [discriminate|].
  injection Hd as ->. cbn [map].
  eexists _, _, _. split; [reflexivity|]. split; [reflexivity|].
  split.
  { rewrite project_kept
      by (unfold channelFields; rewrite !elem_of_cons; tauto).
    unfold addFields. rewrite !lookup_insert_ne by done.
    apply lookup_insert_eq. }
  rewrite existsb_exists. split.
  - intros (s & Hs & Hb). apply bool_decide_eq_true in Hb.
    apply list_elem_of_In, list_elem_of_filter in Hs as [Hc Hs]. eauto.
  - intros (s & Hs & Hc & Hb). exists s. split.
    + apply list_elem_of_In, list_elem_of_filter. auto.
    + by apply bool_decide_eq_true.
Qed.

(** X29: The username of the request is matched in lower case: two requests of
    the same viewer whose usernames agree once lower-cased are answered
    alike. *)
Theorem channel_username_case (req1 req2 : Request) (w : World)
    (u1 u2 : jsstring) :
  params req1 !! "username" = Some u1 ->
  params req2 !! "username" = Some u2 ->
  isEmpty (trim u1) = false ->
  isEmpty (trim u2) = false ->
  toLowerCase u1 = toLowerCase u2 ->
  user req1 = user req2 ->
  getUserChannalProfileHandler req1 w = getUserChannalProfileHandler req2 w.
Proof.
  intros H1 H2 Hn1 Hn2 Hl Hu.
  rewrite (channel_run req1 w u1 H1 Hn1), (channel_run req2 w u2 H2 Hn2).
  by rewrite Hl, Hu.
Qed.

End Channel.

(** ** The further properties at work *)

Lemma register_blank_field_witness :
  @registerUserHandler Demo.collaborators Cases.blankUsername Demo.empty
  = (Demo.empty, Throw (ApiError 400 (lit "All field are required"))).
Proof.
  apply (@register_blank_field_rejected Demo.collaborators
           Cases.blankUsername Demo.empty "username" (lit "  ")).
  - by repeat constructor.
  - vm_compute. reflexivity.
  - vm_compute. reflexivity.
Defined.

Lemma register_conflict_witness :
  @registerUserHandler Demo.collaborators Demo.registerAlice Demo.registered
  = (logged OpFindOne Demo.registered,
     Throw (ApiError 409 (lit "user is already exist"))).
Proof.
  refine (proj1 (@register_conflict Demo.collaborators Demo.registerAlice
                   Demo.registered _) _).
  - vm_compute. reflexivity.
  - vm_compute. eexists. reflexivity.
Defined.

Lemma register_requires_avatar_witness :
  @registerUserHandler Demo.collaborators Cases.registerWithoutFiles
    Demo.registered
  = (logged OpFindOne Demo.registered,
     Throw (ApiError 400 (lit "Avatar files is reqiured"))).
Proof.
  apply (@register_requires_avatar Demo.collaborators
           Cases.registerWithoutFiles Demo.registered).
  - vm_compute. reflexivity.
  - vm_compute. reflexivity.
  - left. reflexivity.
Defined.

Lemma register_files_without_avatar_witness :
  @registerUserHandler Demo.collaborators Cases.registerCoverOnly
    Demo.registered
  = (logged OpFindOne Demo.registered, Throw TypeError)
  /\ @Draft.registerUserHandler Demo.collaborators Cases.registerCoverOnly
       Demo.registered
     = (logged OpFindOne Demo.registered,
        Throw (ApiError 400 (lit "Avatar files is reqiured"))).
Proof.
  apply (@register_files_without_avatar Demo.collaborators
           Cases.registerCoverOnly Demo.registered
           {["coverImage" := [mkFile (lit "c.png")]]}).
  - vm_compute. reflexivity.
  - vm_compute. reflexivity.
  - reflexivity.
  - vm_compute. reflexivity.
Defined.


Lemma login_rejections_witness :
  @loginUserHandler Demo.collaborators 7 Demo.loginAlice Demo.empty
  = (logged OpFindOne Demo.empty,
     Throw (ApiError 404 (lit "User does not exist")))
  /\ @loginUserHandler Demo.collaborators 7 Cases.loginWrongPassword
       Demo.registered
     = (logged OpFindOne Demo.registered,
        Throw (ApiError 401 (lit "Invalid user credentials."))).
Proof.
  split.
  - refine (proj1 (@login_rejections Demo.collaborators 7 Demo.loginAlice
                     Demo.empty _) _); vm_compute; reflexivity.
  - refine (proj2 (@login_rejections Demo.collaborators 7
                     Cases.loginWrongPassword Demo.registered _)
              Demo.alice _ _); vm_compute; reflexivity.
Defined.

Lemma login_failure_keeps_store_witness :
  users (logged OpFindOne Demo.registered) = users Demo.registered
  /\ subscriptions (logged OpFindOne Demo.registered)
     = subscriptions Demo.registered.
Proof.
  apply (@login_failure_keeps_store Demo.collaborators 7
           Cases.loginWrongPassword Demo.registered
           (logged OpFindOne Demo.registered)
           (ApiError 401 (lit "Invalid user credentials."))).
  vm_compute. reflexivity.
Defined.

Lemma login_success_witness :
  exists u i stored a r,
    find (fun d => existsb (matchesField d)
                     [("username", body Demo.loginAlice !! "username");
                      ("email", body Demo.loginAlice !! "email")])
      (users Demo.registered) = Some u
    /\ @isPasswordCorrect Demo.collaborators u
         (body Demo.loginAlice !! "password") = Some true
    /\ doc_id u = Some i
    /\ status (Cases.answer (@loginUserHandler Demo.collaborators 7
                               Demo.loginAlice Demo.registered)) = 200
    /\ setCookies (Cases.answer (@loginUserHandler Demo.collaborators 7
                                   Demo.loginAlice Demo.registered))
       = [SetCookie "accessToken" a (mkOptions true false);
          SetCookie "refreshToken" r (mkOptions true false)]
    /\ data (json (Cases.answer (@loginUserHandler Demo.collaborators 7
                                   Demo.loginAlice Demo.registered)))
       = DSession (Some (select ["password"; "refreshToken"] stored)) a r
    /\ find (hasId (Some i))
         (users (@loginUserHandler Demo.collaborators 7 Demo.loginAlice
                   Demo.registered).1) = Some stored
    /\ stored !! "refreshToken" = Some (VStr r).
Proof.
  apply (@login_success Demo.collaborators 7 Demo.loginAlice Demo.registered).
  vm_compute. reflexivity.
Defined.

Lemma demo_sign_verify (d : Doc) (n : nat) (token : jsstring) :
  @generateRefreshToken Demo.collaborators d n = Some token ->
  isEmpty token = false
  /\ @jwt_verify Demo.collaborators token
       (@REFRESH_TOKEN_SECRET Demo.collaborators) = inr (doc_id d).
Proof.
  simpl. unfold Demo.mint. destruct (doc_id d) as [i|]; [|discriminate].
  intros [= <-]. split; [reflexivity|]. simpl. by rewrite Nat2N.id.
Defined.

Lemma demo_mint (d : Doc) (n : nat) :
  is_Some (doc_id d) ->
  is_Some (@generateAccessToken Demo.collaborators d n)
  /\ is_Some (@generateRefreshToken Demo.collaborators d n).
Proof.
  intros [i Hi]. simpl. unfold Demo.mint. rewrite Hi. split; by eexists.
Defined.

Lemma login_then_refresh_witness :
  exists w2 resp2 a2 r2,
    @refreshAccessTokenHandler Demo.collaborators 8
      (Demo.refreshWith Demo.aliceToken)
      (@loginUserHandler Demo.collaborators 7 Demo.loginAlice Demo.registered).1
    = (w2, Return resp2)
    /\ status resp2 = 200
    /\ data (json resp2) = DTokens a2 r2.
Proof.
  apply (@login_then_refresh Demo.collaborators 7 8 Demo.loginAlice
           (Demo.refreshWith Demo.aliceToken) Demo.registered _
           (Cases.answer (@loginUserHandler Demo.collaborators 7
                            Demo.loginAlice Demo.registered))
           (Some (delete "password" Demo.alice)) [97; 1; 7]%N Demo.aliceToken).
  - apply demo_sign_verify.
  - intros d. apply demo_mint.
  - vm_compute. reflexivity.
  - vm_compute. reflexivity.
  - vm_compute. reflexivity.
Defined.

Lemma refresh_failure_witness :
  (exists msg, ApiError 401 (lit "invalid refersh token") = ApiError 401 msg)
  /\ users (logged (OpFindById (Some 9%nat)) Demo.loggedIn)
     = users Demo.loggedIn
  /\ subscriptions (logged (OpFindById (Some 9%nat)) Demo.loggedIn)
     = subscriptions Demo.loggedIn.
Proof.
  apply (@refresh_failure_401_keeps_store Demo.collaborators 8
           (Demo.refreshWith Demo.strangerToken) Demo.loggedIn).
  vm_compute. reflexivity.
Defined.

Lemma refresh_verification_failure_witness :
  @refreshAccessTokenHandler Demo.collaborators 8
    (Demo.refreshWith Cases.malformedToken) Demo.loggedIn
  = (Demo.loggedIn, Throw (ApiError 401 (lit "jwt malformed"))).
Proof.
  apply (@refresh_verification_failure Demo.collaborators 8
           (Demo.refreshWith Cases.malformedToken) Demo.loggedIn
           Cases.malformedToken (lit "jwt malformed"));
    vm_compute; reflexivity.
Defined.

Lemma refresh_mint_failure_witness :
  exists w',
    @refreshAccessTokenHandler Cases.unsigned 8
      (Demo.refreshWith Demo.aliceToken) Demo.loggedIn
    = (w', Throw (ApiError 401
             (lit "Something went wrong, while creating access and refresh token")))
    /\ users w' = users Demo.loggedIn.
Proof.
  apply (@refresh_mint_failure_is_401 Cases.unsigned 8
           (Demo.refreshWith Demo.aliceToken) Demo.loggedIn Demo.aliceToken
           (Some 1%nat) Demo.aliceLoggedIn).
  - vm_compute. reflexivity.
  - vm_compute. reflexivity.
  - vm_compute. reflexivity.
  - vm_compute. reflexivity.
  - vm_compute. reflexivity.
  - left. reflexivity.
Defined.

Lemma logout_always_succeeds_witness :
  exists w' resp,
    logoutUserHandler Demo.logoutAlice Demo.registered = (w', Return resp)
    /\ status resp = 200
    /\ setCookies resp
       = [ClearCookie "accessToken" (mkOptions true false);
          ClearCookie "refreshToken" (mkOptions true false)]
    /\ users w' = users Demo.registered.
Proof.
  destruct (logout_always_succeeds Demo.logoutAlice Demo.registered
              (select ["password"; "refreshToken"] Demo.aliceLoggedIn))
    as (w' & resp & H1 & H2 & H3 & H4); [reflexivity|].
  exists w', resp. repeat split; try assumption.
  apply H4. right. exists Demo.alice. split; vm_compute; reflexivity.
Defined.

Lemma logout_idempotent_witness :
  users (logoutUserHandler Demo.logoutAlice
           (logoutUserHandler Demo.logoutAlice Demo.loggedIn).1).1
  = users (logoutUserHandler Demo.logoutAlice Demo.loggedIn).1.
Proof.
  refine (proj1 (logout_idempotent Demo.logoutAlice Demo.loggedIn _ _
                   (logoutUserHandler Demo.logoutAlice Demo.loggedIn).2
                   (logoutUserHandler Demo.logoutAlice
                      (logoutUserHandler Demo.logoutAlice Demo.loggedIn).1).2
                   _ _)).
  - apply surjective_pairing.
  - apply surjective_pairing.
Defined.

Lemma session_changes_witness :
  map (delete "refreshToken") (users Demo.afterRefresh)
  = map (delete "refreshToken") (users Demo.loggedIn)
  /\ subscriptions Demo.afterRefresh = subscriptions Demo.loggedIn.
Proof.
  apply (@session_changes_refreshToken_only Demo.collaborators 8
           (Demo.refreshWith Demo.aliceToken) Demo.loggedIn Demo.afterRefresh
           (Return Demo.refreshed)).
  right. left. vm_compute. reflexivity.
Defined.

Lemma changePassword_missing_user_witness :
  @changeCurrentPasswordHandler Demo.collaborators Demo.changeWrong Demo.empty
  = (logged (OpFindById (user Demo.changeWrong ≫= doc_id)) Demo.empty,
     Throw TypeError).
Proof.
  apply (@changePassword_missing_user Demo.collaborators Demo.changeWrong
           Demo.empty).
  reflexivity.
Defined.

Lemma changePassword_changes_password_only_witness :
  map (delete "password")
    (users (@changeCurrentPasswordHandler Demo.collaborators Cases.changeRight
              Demo.loggedIn).1)
  = map (delete "password") (users Demo.loggedIn)
  /\ (@changeCurrentPasswordHandler Demo.collaborators Cases.changeRight
        Demo.loggedIn).2
     = Return (mkResponse 200 []
                 (ApiResponse 200 DEmpty (lit "Password Changed Successfully"))).
Proof.
  split; [|vm_compute; reflexivity].
  refine (proj1 (@changePassword_changes_password_only Demo.collaborators
                   Cases.changeRight Demo.loggedIn _
                   (@changeCurrentPasswordHandler Demo.collaborators
                      Cases.changeRight Demo.loggedIn).2 _)).
  apply surjective_pairing.
Defined.

Lemma update_account_success_witness :
  exists w' resp v u',
    @updateUserAccountHandler Cases.updateAlice Demo.loggedIn = (w', Return resp)
    /\ status resp = 200
    /\ userView resp = Some v
    /\ v !! "fullname" = Some (VStr (lit "Alice B"))
    /\ v !! "email" = Some (VStr (lit "ab@x.com"))
    /\ v !! "password" = None
    /\ (forall field,
          field <> "fullname" -> field <> "email" -> field <> "password" ->
          v !! field = Demo.aliceLoggedIn !! field)
    /\ find (hasId (user Cases.updateAlice ≫= doc_id)) (users w') = Some u'
    /\ u' !! "password" = Demo.aliceLoggedIn !! "password"
    /\ v = delete "password" u'.
Proof.
  apply (update_account_success Cases.updateAlice Demo.loggedIn
           (lit "Alice B") (lit "ab@x.com") Demo.aliceLoggedIn);
    vm_compute; reflexivity.
Defined.

Lemma update_account_unknown_caller_witness :
  exists w' resp,
    updateUserAccountHandler Cases.updateAlice Demo.empty = (w', Return resp)
    /\ status resp = 200
    /\ data (json resp) = DUser None
    /\ users w' = users Demo.empty.
Proof.
  apply (update_account_unknown_caller Cases.updateAlice Demo.empty);
    vm_compute; reflexivity.
Defined.

Lemma update_account_keeps_refreshToken_witness :
  exists w' resp v,
    updateUserAccountHandler Cases.updateAlice Demo.loggedIn
    = (w', Return resp)
    /\ userView resp = Some v
    /\ v !! "refreshToken" = Some (VStr Demo.aliceToken).
Proof.
  apply (@update_account_keeps_refreshToken Demo.collaborators
           Cases.updateAlice Demo.loggedIn
           Demo.aliceLoggedIn (VStr Demo.aliceToken));
    vm_compute; reflexivity.
Defined.

Lemma update_image_failure_witness :
  (@updateUserCoverImageHandler Demo.collaborators Cases.noFile
     Demo.loggedIn).1
  = Demo.loggedIn.
Proof.
  apply (@update_image_failure_writes_nothing Demo.collaborators Cases.noFile
           Demo.loggedIn _ (ApiError 400 (lit "cover image is required"))).
  right. vm_compute. reflexivity.
Defined.

Lemma update_avatar_success_witness :
  exists avatar,
    @uploadOnCloudinary Demo.collaborators (path <$> file Cases.avatarUpload)
    = Some avatar
    /\ isEmpty (url avatar) = false
    /\ map (delete "avatar")
         (users (@updateUserAvatarHandler Demo.collaborators
                   Cases.avatarUpload Demo.loggedIn).1)
       = map (delete "avatar") (users Demo.loggedIn)
    /\ data (json (Cases.answer (@updateUserAvatarHandler Demo.collaborators
                                   Cases.avatarUpload Demo.loggedIn)))
       = DUser (select ["password"]
                  <$> (insert "avatar" (VStr (url avatar))
                         <$> find (hasId (user Cases.avatarUpload ≫= doc_id))
                               (users Demo.loggedIn)))
    /\ (forall u',
          find (hasId (user Cases.avatarUpload ≫= doc_id))
            (users (@updateUserAvatarHandler Demo.collaborators
                      Cases.avatarUpload Demo.loggedIn).1) = Some u' ->
          u' !! "avatar" = Some (VStr (url avatar))).
Proof.
  apply (@update_avatar_success Demo.collaborators Cases.avatarUpload
           Demo.loggedIn).
  vm_compute. reflexivity.
Defined.

Lemma channel_blank_username_witness :
  @getUserChannalProfileHandler Demo.collaborators
    (Cases.channelOf (lit "  ") None) Cases.community
  = (Cases.community, Throw (ApiError 400 (lit "Username is missing"))).
Proof.
  apply (@channel_blank_username Demo.collaborators).
  right. exists (lit "  "). split; vm_compute; reflexivity.
Defined.

Lemma channel_profile_fields_witness :
  exists resp c,
    @getUserChannalProfileHandler Demo.collaborators
      (Cases.channelOf (lit "Alice") (Some Cases.bob)) Cases.community
    = (logged OpAggregate Cases.community, Return resp)
    /\ status resp = 200
    /\ data (json resp) = DChannel c
    /\ c !! "username" = Some (VStr (lit "alice"))
    /\ c !! "password" = None
    /\ c !! "refreshToken" = None
    /\ c !! "subscriberCount" = None
    /\ c !! "subscribersCount" = None
    /\ c !! "channelsSubscribedToCount" = Some (VNum 0).
Proof.
  apply (@channel_profile_fields Demo.collaborators
           (Cases.channelOf (lit "Alice") (Some Cases.bob)) Cases.community
           (lit "Alice") Demo.aliceLoggedIn);
    vm_compute; reflexivity.
Defined.

Lemma channel_isSubscribed_witness :
  exists resp c b,
    @getUserChannalProfileHandler Demo.collaborators
      (Cases.channelOf (lit "Alice") (Some Cases.bob)) Cases.community
    = (logged OpAggregate Cases.community, Return resp)
    /\ data (json resp) = DChannel c
    /\ c !! "isSubscribed" = Some (VBool b)
    /\ (b = true <->
        exists s, s ∈ subscriptions Cases.community
                  /\ fieldOrNull s "channel"
                     = fieldOrNull Demo.aliceLoggedIn "_id"
                  /\ s !! "subscriber"
                     = Some (idValue
                               (user (Cases.channelOf (lit "Alice")
                                        (Some Cases.bob)) ≫= doc_id))).
Proof.
  apply (@channel_isSubscribed Demo.collaborators
           (Cases.channelOf (lit "Alice") (Some Cases.bob)) Cases.community
           (lit "Alice") Demo.aliceLoggedIn);
    vm_compute; reflexivity.
Defined.

Lemma channel_username_case_witness :
  @getUserChannalProfileHandler Demo.collaborators
    (Cases.channelOf (lit "ALICE") None) Cases.community
  = @getUserChannalProfileHandler Demo.collaborators
      (Cases.channelOf (lit "alice") None) Cases.community.
Proof.
  apply (@channel_username_case Demo.collaborators
           (Cases.channelOf (lit "ALICE") None)
           (Cases.channelOf (lit "alice") None) Cases.community
           (lit "ALICE") (lit "alice"));
    vm_compute; reflexivity.
Defined.

Lemma draft_login_requires_both_witness :
  @Draft.loginUserHandler Demo.collaborators 7 Demo.loginAlice Demo.registered
  = (Demo.registered,
     Throw (ApiError 400 (lit "username or email is required"))).
Proof.
  apply (@draft_login_requires_both Demo.collaborators).
  right. vm_compute. reflexivity.
Defined.
